(** * createDataFrame of the Spark Connect Python client

    A shallow embedding of [SparkSession._inferSchemaFromList] and
    [SparkSession.createDataFrame] of
    [python/pyspark/sql/connect/session.py], with the properties the
    specification states about them.

    Python exceptions are values of an error monad; strings, lists and
    dictionaries are Rocq strings, lists and insertion-ordered association
    lists.  Functions of pandas and of [pyspark.sql.types] that the
    session module only calls are collected in the class
    [Collaborators], those of pyarrow in the class [Arrow]; the theorems
    hold for every implementation of them.  A call into pandas or
    pyarrow can raise: the exception is kept by the name of its class,
    and which inputs raise is up to the library. *)

From Stdlib Require Import Ascii String Sorted Permutation OrderedTypeEx.
From stdpp Require Import base list strings pretty sorting gmap.

Set Default Proof Using "Type".

(** ** Exceptions and results *)

Inductive exn :=
| TypeError (msg : string)
| ValueError (msg : string)
| IndexError (msg : string)
| LibraryError (cls : string).

Inductive result (A : Type) :=
| Ok (a : A)
| Raise (e : exn).
Arguments Ok {A} a.
Arguments Raise {A} e.

Global Instance result_ret : MRet result := @Ok.
Global Instance result_bind : MBind result := fun A B k r =>
  match r with
  | Ok a => k a
  | Raise e => Raise e
  end.
Global Instance result_fmap : FMap result := fun A B f r =>
  match r with
  | Ok a => Ok (f a)
  | Raise e => Raise e
  end.

Definition is_ok {A} (r : result A) : bool :=
  match r with Ok _ => true | Raise _ => false end.

(** What a call into pandas or pyarrow does: it gives a value, or it
    raises an exception of the library, [LibraryError] with the name of
    the exception's class ([ArrowInvalid], [OverflowError], ...).  The
    exceptions the session module raises itself are the other
    constructors of [exn]. *)
Inductive library (A : Type) :=
| Gives (a : A)
| Fails (cls : string).
Arguments Gives {A} a.
Arguments Fails {A} cls.

Definition call {A} (r : library A) : result A :=
  match r with
  | Gives a => Ok a
  | Fails cls => Raise (LibraryError cls)
  end.

(** ** Python built-ins *)

(** [str(n)] for a non-negative integer. *)
Definition py_str (n : nat) : string := pretty n.

(** ["_%s" % i for i in range(1, n + 1)] *)
Definition positional_names (n : nat) : list string :=
  map (fun i => "_" +:+ py_str i) (seq 1 n).

(** The two places that report a column-count disagreement format the same
    message: [f"Length mismatch: Expected axis has {a} elements, new values
    have {b} elements"]. *)
Definition length_mismatch (a b : nat) : exn :=
  ValueError ("Length mismatch: Expected axis has " +:+ py_str a +:+
              " elements, new values have " +:+ py_str b +:+ " elements").

(** The rank-1 array branch spells the singular: "has 1 element". *)
Definition length_mismatch_1 (b : nat) : exn :=
  ValueError ("Length mismatch: Expected axis has 1 element, new values have "
              +:+ py_str b +:+ " elements").

Definition empty_dataset : exn :=
  ValueError "can not infer schema from empty dataset".

Definition undetermined_types : exn :=
  ValueError "Some of types cannot be determined after inferring".

Definition invalid_rank : exn :=
  ValueError "NumPy array input should be of 1 or 2 dimensions.".

Section dict.
Context {V : Type}.

(** A [dict] with string keys, in insertion order.  A dictionary object
    never holds a key twice; [dict_set] keeps that. *)
Definition dict := list (string * V).

Definition keys (d : dict) : list string := map fst d.

(** [d[k] = v]: an existing key keeps its position. *)
Fixpoint dict_set (d : dict) (k : string) (v : V) : dict :=
  match d with
  | [] => [(k, v)]
  | (k', v') :: d' =>
      if String.eqb k k' then (k', v) :: d' else (k', v') :: dict_set d' k v
  end.

(** [dict(pairs)] *)
Definition py_dict (pairs : list (string * V)) : dict :=
  fold_left (fun d kv => dict_set d kv.1 kv.2) pairs [].

(** [d.get(k)] *)
Fixpoint dict_get (d : dict) (k : string) : option V :=
  match d with
  | [] => None
  | (k', v) :: d' => if String.eqb k k' then Some v else dict_get d' k
  end.

(** [sorted(d.items())].  Python compares the (key, value) pairs
    lexicographically and [sorted] is stable; the keys of a dictionary
    are pairwise distinct, so the values are never compared and the
    order is the order of the keys.  Strings compare by code point,
    which for UTF-8 bytes is [String.leb]. *)
Fixpoint insert_item (x : string * V) (l : list (string * V)) :=
  match l with
  | [] => [x]
  | y :: l' =>
      if String.leb x.1 y.1 then x :: y :: l' else y :: insert_item x l'
  end.

Definition sorted_items (d : dict) : list (string * V) :=
  foldr insert_item [] d.

(** [dict(zip(names, values))]; [zip] stops at the shorter argument. *)
Definition dict_zip (names : list string) (values : list V) : dict :=
  py_dict (zip names values).
End dict.
Arguments dict V : clear implicits.

(** The order of [sorted] on keys. *)
Definition key_le (a b : string) : Prop := String.leb a b = true.

(** ** The type model of [pyspark.sql.types] *)

Inductive time_unit := unit_s | unit_ms | unit_us | unit_ns.

(** Modelled from the spec: the [AtomicType] class of [pyspark.sql.types]
    is not part of the sources at hand.  The spec gives a closed tag set:
    integer families, floating-point families, boolean, string, binary,
    date/time families with a precision attribute, decimal with
    precision/scale, null. *)
Inductive AtomicType :=
| NullType
| BooleanType
| ByteType | ShortType | IntegerType | LongType
| FloatType | DoubleType
| StringType
| BinaryType
| DateType
| TimestampType (precision : time_unit)
| DecimalType (precision scale : nat).

(** Modelled from the spec: [StructField] is
    [{ name, type, nullable }]. *)
Record StructField_ (T : Type) := mkStructField {
  name : string;
  dataType : T;
  nullable : bool
}.
Arguments mkStructField {T} name dataType nullable.
Arguments name {T} s.
Arguments dataType {T} s.
Arguments nullable {T} s.

(** Modelled from the spec: [StructType] is an ordered sequence of fields
    that carries, next to [fields], the list [names] of their names.  The
    session module reads and assigns both attributes, so both are kept. *)
Record StructType_ (T : Type) := mkStructType {
  fields : list (StructField_ T);
  names : list string
}.
Arguments mkStructType {T} fields names.
Arguments fields {T} s.
Arguments names {T} s.

(** Modelled from the spec: a field's type is an atomic type, a structured
    type, an array type or a map type. *)
#[warnings="-register-all"] Inductive DataType :=
| Atomic (t : AtomicType)
| Struct (s : StructType_ DataType)
| ArrayType (elementType : DataType)
| MapType (keyType valueType : DataType).

Abbreviation StructField := (StructField_ DataType).
Abbreviation StructType := (StructType_ DataType).

(** What [StructType(fields)] builds: [names] lists the fields' names. *)
Definition struct_of (fs : list StructField) : StructType :=
  mkStructType fs (map name fs).

(** The invariant of the spec: [fields] and [names] have one length and
    agree position by position. *)
Definition lock_step (s : StructType) : Prop :=
  length (fields s) = length (names s) ∧
  ∀ i f, fields s !! i = Some f → names s !! i = Some (name f).

Global Instance AtomicType_eq_dec : EqDecision AtomicType.
Proof. unfold EqDecision, Decision. repeat decide equality. Defined.

Global Instance time_unit_eq_dec : EqDecision time_unit.
Proof. unfold EqDecision, Decision. decide equality. Defined.

(** ** pandas, numpy and pyarrow data *)

Inductive dtype :=
| datetime64 (unit : time_unit)
| datetime64tz (unit : time_unit) (tz : string)
| other_dtype (descr : string).

(** [pandas.api.types.is_datetime64_dtype] and [is_datetime64tz_dtype] *)
Definition is_datetime64_dtype (d : dtype) : bool :=
  match d with datetime64 _ => true | _ => false end.
Definition is_datetime64tz_dtype (d : dtype) : bool :=
  match d with datetime64tz _ _ => true | _ => false end.

Inductive ArrowType :=
| pa_timestamp (unit : time_unit) (tz : option string)
| pa_other (descr : string).

Section data.
Context {value : Type}.

(** A pandas [Series]: the declared dtype and the values. *)
Record Series := mkSeries {
  series_dtype : dtype;
  series_values : list value
}.

(** A pandas [DataFrame]: the row count ([len(data)]), the labelled
    columns in order and the index.  Labels are taken to be distinct, so
    [data[c]] for [c in data] visits the columns one by one.
    [frame_index] holds the levels of the index that Arrow stores as
    columns of the table, after the frame's own columns and under the
    names Arrow gives them: none for a default range index, which Arrow
    keeps as metadata only. *)
Record PandasFrame := mkFrame {
  frame_len : nat;
  frame_columns : list (string * Series);
  frame_index : list (string * Series)
}.

(** A numpy array: its shape and its elements in row-major order. *)
Record ndarray := mkArray {
  shape : list nat;
  flat : list value
}.

Definition ndim (a : ndarray) : nat := length (shape a).

(** [data.shape[1]], read only where [ndim] is 2. *)
Definition shape1 (a : ndarray) : nat := default 0 (shape a !! 1).

(** [data[::, i]] of a two-dimensional array. *)
Definition array_column (a : ndarray) (i : nat) : list (option value) :=
  map (fun r => flat a !! (r * shape1 a + i)) (seq 0 (default 0 (shape a !! 0))).

(** A pyarrow column: the Arrow type when the caller fixed it ([None]
    leaves it to Arrow's own inference from the values) and the cells;
    a missing cell is Arrow's null. *)
Record Column := mkColumn {
  col_type : option ArrowType;
  col_values : list (option value)
}.

Record Table := mkTable {
  column_names : list string;
  columns : list Column
}.

(** [_table.shape[1]] *)
Definition num_cols (t : Table) : nat := length (columns t).

(** What [pa.Table.from_pylist(rows)] without a schema hands to
    [from_arrays]: the names are the keys of the first row, in its order,
    and the array of a name holds [row[n] if n in row else None] for
    every row. *)
Definition pylist_names (rows : list (dict value)) : list string :=
  match rows with [] => [] | r :: _ => keys r end.

Definition pylist_arrays (rows : list (dict value))
    : list (list (option value)) :=
  map (fun n => map (fun r => dict_get r n) rows) (pylist_names rows).

(** The rows of an iterable.  The session module looks at the first
    element only to choose how the whole batch is read, so a batch is
    given by the shape of its elements: [Row] objects (field names and
    values), dictionaries, lists or tuples, or anything else. *)
Inductive batch :=
| RowBatch (rows : list (list (string * value)))
| DictBatch (rows : list (dict value))
| SeqBatch (rows : list (list value))
| ScalarBatch (rows : list value).

(** One element of a batch, as [_infer_schema] receives it. *)
Inductive row :=
| RRow (items : list (string * value))
| RDict (d : dict value)
| RSeq (xs : list value)
| RScalar (v : value).

Definition batch_rows (b : batch) : list row :=
  match b with
  | RowBatch rows => map RRow rows
  | DictBatch rows => map RDict rows
  | SeqBatch rows => map RSeq rows
  | ScalarBatch rows => map RScalar rows
  end.

(** The [data] argument. *)
Inductive data_arg :=
| ConnectDataFrame
| Pandas (f : PandasFrame)
| Ndarray (a : ndarray)
| Iterable (sized : bool) (rows : batch).

(** The [schema] argument: [AtomicType], [StructType], [str], a list or
    tuple of column names, or [None]. *)
Inductive schema_arg :=
| SchemaAtomic (t : AtomicType)
| SchemaStruct (s : StructType)
| SchemaStr (s : string)
| SchemaCols (cols : list string)
| SchemaNone.

(** The plan that comes back.  [schema_json t] stands for the text
    [t.json()]. *)
Inductive plan_schema :=
| schema_json (t : DataType)
| schema_str (s : string).

Record LocalRelation := mkLocalRelation {
  table : option Table;
  schema : option plan_schema
}.

Inductive DataFrame :=
| withPlan (plan : LocalRelation)
| toDF (df : DataFrame) (cols : list string).
End data.
Arguments Series value : clear implicits.
Arguments PandasFrame value : clear implicits.
Arguments ndarray value : clear implicits.
Arguments Column value : clear implicits.
Arguments Table value : clear implicits.
Arguments batch value : clear implicits.
Arguments row value : clear implicits.
Arguments data_arg value : clear implicits.
Arguments LocalRelation value : clear implicits.
Arguments DataFrame value : clear implicits.

(** ** The functions the session module calls

    [_infer_schema], [_merge_type] and [_has_nulltype] come from
    [pyspark.sql.types], [Row_asDict] is [Row.asDict(recursive=True)] of
    the same module, [_check_series_convert_timestamps_internal] and
    [_get_local_timezone] come from [pyspark.sql.pandas.types].
    [_merge_type] is used on the structured types [_infer_schema] returns
    and is typed so.  [astype] is [Series.astype] of pandas. *)
Class Collaborators (value : Type) := {
  _infer_schema : row value → option (list string) → result StructType;
  _merge_type : StructType → StructType → result StructType;
  _has_nulltype : StructType → bool;
  Row_asDict : list (string * value) → dict value;
  _check_series_convert_timestamps_internal :
    Series value → string → result (Series value);
  _get_local_timezone : string;
  astype : Series value → dtype → library (Series value)
}.

(** What pyarrow does with the values it is handed.  [arrow_type_of] is
    the Arrow type pyarrow infers for a column of a frame, in
    [pa.Schema.from_pandas] and in [pa.Table.from_pandas] without a
    schema, and [from_pandas_raises] tells the exception, if any, of
    converting a column of a frame to the Arrow type a schema asks for.
    [pa_array_raises] tells the exception, if any, of [pa.array] on the
    cells of one column, as [pa.Table.from_pylist],
    [pa.Table.from_arrays] and the numpy branch call it. *)
Class Arrow (value : Type) := {
  arrow_type_of : Series value → library ArrowType;
  from_pandas_raises : Series value → ArrowType → option string;
  pa_array_raises : list (option value) → option string
}.

Section session.
Context {value : Type} `{!Collaborators value} `{!Arrow value}.

(** *** [_inferSchemaFromList] *)

(** [reduce(_merge_type, (_infer_schema(row, names) for row in data))]
    on a non-empty list: the generator is consumed one row at a time,
    each row's schema is inferred just before it is merged in, and the
    first exception ends the fold. *)
Definition reduce_merge (row0 : row value) (rest : list (row value))
    (names : option (list string)) : result StructType :=
  fold_left
    (fun acc r => a ← acc; s ← _infer_schema r names; _merge_type a s)
    rest (_infer_schema row0 names).

Definition _inferSchemaFromList (data : list (row value))
    (names : option (list string)) : result StructType :=
  match data with
  | [] => Raise empty_dataset
  | row0 :: rest =>
      schema ← reduce_merge row0 rest names;
      if _has_nulltype schema then Raise undetermined_types
      else Ok schema
  end.

(** *** Building pyarrow tables *)

(** The arrays of a table are converted one after the other, [pa.array]
    on each; the first exception ends the call. *)
Fixpoint convert_columns (arrays : list (list (option value)))
    : result (list (Column value)) :=
  match arrays with
  | [] => Ok []
  | a :: arrays' =>
      match pa_array_raises a with
      | Some cls => Raise (LibraryError cls)
      | None => cols ← convert_columns arrays'; Ok (mkColumn None a :: cols)
      end
  end.

(** [pa.Table.from_arrays(arrays, names)]; every caller passes as many
    names as arrays. *)
Definition from_arrays (arrays : list (list (option value)))
    (names : list string) : result (Table value) :=
  cols ← convert_columns arrays; Ok (mkTable names cols).

(** [pa.Table.from_pylist(rows)] without a schema. *)
Definition from_pylist (rows : list (dict value)) : result (Table value) :=
  from_arrays (pylist_arrays rows) (pylist_names rows).

(** *** The pandas branch of [createDataFrame] *)

(** [any([is_datetime64_dtype(data[c]) or is_datetime64tz_dtype(data[c])
    for c in data])] *)
Definition has_timestamp_data (data : PandasFrame value) : bool :=
  existsb
    (fun c => is_datetime64_dtype (series_dtype c.2)
              || is_datetime64tz_dtype (series_dtype c.2))
    (frame_columns data).

(** The body of [for col in input_data], for one column. *)
Definition truncate_series (s : Series value) : result (Series value) :=
  if is_datetime64tz_dtype (series_dtype s) then
    s' ← _check_series_convert_timestamps_internal s _get_local_timezone;
    call (astype s' (datetime64tz unit_us "UTC"))
  else if is_datetime64_dtype (series_dtype s) then
    call (astype s (datetime64 unit_us))
  else Ok s.

(** The body of [for x in range(len(pd_schema.types))], for one field:
    a nanosecond timestamp becomes [pa.timestamp("us")]. *)
Definition truncate_field (f : string * ArrowType) : string * ArrowType :=
  match f.2 with
  | pa_timestamp unit_ns _ => (f.1, pa_timestamp unit_us None)
  | _ => f
  end.

(** The columns Arrow takes from a frame: the frame's own, then the
    stored index levels. *)
Definition arrow_columns (df : PandasFrame value)
    : list (string * Series value) :=
  frame_columns df ++ frame_index df.

(** [pa.Schema.from_pandas(df)]: one field per column, typed by
    inference, column after column. *)
Definition Schema_from_pandas (df : PandasFrame value)
    : result (list (string * ArrowType)) :=
  mapM (fun c => t ← call (arrow_type_of c.2); Ok (c.1, t))
    (arrow_columns df).

(** The conversion of the columns under the fields of a schema, column
    after column. *)
Fixpoint cast_columns (sch : list (string * ArrowType))
    (cols : list (string * Series value)) : result (list (Column value)) :=
  match sch, cols with
  | f :: sch', c :: cols' =>
      match from_pandas_raises c.2 f.2 with
      | Some cls => Raise (LibraryError cls)
      | None =>
          rest ← cast_columns sch' cols';
          Ok (mkColumn (Some f.2) (map Some (series_values c.2)) :: rest)
      end
  | _, _ => Ok []
  end.

(** [pa.Table.from_pandas(df, schema=sch)]: with a schema, the names and
    types of the schema over the values of the columns; without, every
    column under the type inferred for it. *)
Definition Table_from_pandas (df : PandasFrame value)
    (sch : option (list (string * ArrowType))) : result (Table value) :=
  match sch with
  | Some sch =>
      cols ← cast_columns sch (arrow_columns df);
      Ok (mkTable (map fst sch) cols)
  | None =>
      sch ← Schema_from_pandas df;
      Ok (mkTable (map fst sch)
            (zip_with
               (fun f c => mkColumn (Some f.2) (map Some (series_values c.2)))
               sch (arrow_columns df)))
  end.

(** Which object [input_data] is when the table is built: the caller's
    frame itself, or the fresh frame made by [data.copy()].  Only the
    fresh frame is ever assigned to. *)
Inductive frame_ref :=
| TheInput
| FreshCopy (f : PandasFrame value).

Definition pandas_branch (data : PandasFrame value)
    : result (frame_ref * Table value) :=
  if has_timestamp_data data then
    cols ← mapM (fun c => s ← truncate_series c.2; Ok (c.1, s))
           (frame_columns data);
    let input_data := mkFrame (frame_len data) cols (frame_index data) in
    pd_schema ← Schema_from_pandas input_data;
    let new_schema := map truncate_field pd_schema in
    _table ← Table_from_pandas input_data (Some new_schema);
    Ok (FreshCopy input_data, _table)
  else
    _table ← Table_from_pandas data None;
    Ok (TheInput, _table).

(** *** The numpy branch *)

Definition ndarray_branch (data : ndarray value)
    (_cols : option (list string))
    : result (Table value * option (list string)) :=
  if negb ((ndim data =? 1) || (ndim data =? 2)) then Raise invalid_rank
  else
    let _cols :=
      match _cols with
      | None =>
          if (ndim data =? 1) || (shape1 data =? 1) then ["value"]
          else positional_names (shape1 data)
      | Some c => c
      end in
    if ndim data =? 1 then
      if negb (1 =? length _cols) then
        Raise (length_mismatch_1 (length _cols))
      else
        _table ← from_arrays [map Some (flat data)] _cols;
        Ok (_table, Some _cols)
    else
      if negb (shape1 data =? length _cols) then
        Raise (length_mismatch (shape1 data) (length _cols))
      else
        _table ← from_arrays
                   (map (array_column data) (seq 0 (shape1 data))) _cols;
        Ok (_table, Some _cols).

(** *** The iterable branch *)

(** One round of [for i, name in enumerate(_cols)]: both assignments
    index a list and raise [IndexError] past its end. *)
Definition rename_at (s : StructType) (i : nat) (n : string)
    : result StructType :=
  match fields s !! i with
  | None => Raise (IndexError "list index out of range")
  | Some f =>
      let fs := <[i := mkStructField n (dataType f) (nullable f)]> (fields s) in
      if decide (i < length (names s)) then
        Ok (mkStructType fs (<[i := n]> (names s)))
      else Raise (IndexError "list assignment index out of range")
  end.

Definition apply_cols (s : StructType) (_cols : list string)
    : result StructType :=
  fold_left (fun acc p => s ← acc; rename_at s p.1 p.2)
    (zip (seq 0 (length _cols)) _cols) (Ok s).

(** [_schema]: the explicit [AtomicType] or [StructType], if any. *)
Inductive explicit_schema :=
| ExplicitAtomic (t : AtomicType)
| ExplicitStruct (s : StructType).

Definition explicit_json (e : explicit_schema) : plan_schema :=
  match e with
  | ExplicitAtomic t => schema_json (Atomic t)
  | ExplicitStruct s => schema_json (Struct s)
  end.

(** [_data[0]] with its [IndexError]; the batch tells the shape. *)
Definition batch_is_empty (b : batch value) : bool :=
  match batch_rows b with [] => true | _ => false end.

(** Lines 292-302: sort the dictionaries, infer, rename. *)
Definition infer_step (_schema : option explicit_schema)
    (_cols : option (list string)) (_data : batch value)
    : result (batch value * option StructType) :=
  match _schema, _data with
  | None, DictBatch rows =>
      let _data := DictBatch (map (fun d => py_dict (sorted_items d)) rows) in
      s ← _inferSchemaFromList (batch_rows _data) _cols;
      s ← match _cols with
          | Some c => apply_cols s c
          | None => Ok s
          end;
      Ok (_data, Some s)
  | None, RowBatch rows =>
      s ← _inferSchemaFromList (batch_rows _data) _cols;
      s ← match _cols with
          | Some c => apply_cols s c
          | None => Ok s
          end;
      Ok (_data, Some s)
  | _, _ => Ok (_data, None)
  end.

(** Lines 304-315: the column names when none were given. *)
Definition default_cols (_schema : option explicit_schema)
    (_inferred_schema : option StructType) (_data : batch value)
    : list string :=
  match _schema, _inferred_schema with
  | None, None =>
      match _data with
      | SeqBatch (r :: _) => positional_names (length r)
      | _ => ["_1"]
      end
  | Some (ExplicitStruct s), _ => names s
  | _, Some inferred => names inferred
  | _, _ => ["value"]
  end.

(** Lines 317-325: the table, by the shape of the first element. *)
Definition pylist_table (_cols : list string) (_data : batch value)
    : result (Table value) :=
  match _data with
  | RowBatch rows => from_pylist (map Row_asDict rows)
  | DictBatch rows => from_pylist rows
  | SeqBatch rows => from_pylist (map (fun item => dict_zip _cols item) rows)
  | ScalarBatch rows =>
      from_pylist (map (fun item => dict_zip _cols [item]) rows)
  end.

Definition iterable_branch (_schema : option explicit_schema)
    (_cols : option (list string)) (data : batch value)
    : result (Table value * option (list string) * option StructType) :=
  if batch_is_empty data then Raise (IndexError "list index out of range")
  else
    '(_data, _inferred_schema) ← infer_step _schema _cols data;
    let _cols :=
      match _cols with
      | None => default_cols _schema _inferred_schema _data
      | Some c => c
      end in
    _table ← pylist_table _cols _data;
    Ok (_table, Some _cols, _inferred_schema).

(** *** [createDataFrame] *)

(** [len(data)], for the arguments that have one: a zero-dimensional
    array is [Sized] but its [len] raises, a generator is not [Sized]. *)
Definition py_len (data : data_arg value) : option (result nat) :=
  match data with
  | ConnectDataFrame => None
  | Pandas f => Some (Ok (frame_len f))
  | Ndarray a =>
      match shape a with
      | [] => Some (Raise (TypeError "len() of unsized object"))
      | n :: _ => Some (Ok n)
      end
  | Iterable true b => Some (Ok (length (batch_rows b)))
  | Iterable false _ => None
  end.

(** [isinstance(data, Sized) and len(data) == 0] *)
Definition sized_and_empty (data : data_arg value) : result bool :=
  match py_len data with
  | None => Ok false
  | Some r => n ← r; Ok (n =? 0)
  end.

(** Everything between the empty-input test and the validation: the
    table, [_cols] and [_inferred_schema] as they stand at line 327. *)
Definition build_table (data : data_arg value)
    (_schema : option explicit_schema) (_cols : option (list string))
    : result (Table value * option (list string) * option StructType) :=
  match data with
  | ConnectDataFrame =>
      (* not reached: [createDataFrame] has raised before *)
      Raise (TypeError "data is already a DataFrame")
  | Pandas f => '(_, t) ← pandas_branch f; Ok (t, _cols, None)
  | Ndarray a =>
      '(t, c) ← ndarray_branch a _cols; Ok (t, c, None)
  | Iterable _ b => iterable_branch _schema _cols b
  end.

(** Lines 327-354: validate the number of columns and wrap the plan. *)
Definition validate_and_wrap (_schema : option explicit_schema)
    (_schema_str : option string)
    (built : Table value * option (list string) * option StructType)
    : result (DataFrame value) :=
  let '(_table, _cols, _inferred_schema) := built in
  let num_cols := num_cols _table in
  match _schema with
  | Some (ExplicitStruct s) =>
      if negb (length (fields s) =? num_cols) then
        Raise (length_mismatch num_cols (length (fields s)))
      else Ok ()
  | _ => Ok ()
  end ≫= fun _ =>
  match _cols with
  | Some c =>
      if negb (length c =? num_cols) then
        Raise (length_mismatch num_cols (length c))
      else Ok ()
  | None => Ok ()
  end ≫= fun _ =>
  match _schema, _schema_str, _inferred_schema, _cols with
  | Some e, _, _, _ =>
      Ok (withPlan (mkLocalRelation (Some _table) (Some (explicit_json e))))
  | None, Some str, _, _ =>
      Ok (withPlan (mkLocalRelation (Some _table) (Some (schema_str str))))
  | None, None, Some inferred, _ =>
      Ok (withPlan (mkLocalRelation (Some _table)
                      (Some (schema_json (Struct inferred)))))
  | None, None, None, Some (n :: c) =>
      Ok (toDF (withPlan (mkLocalRelation (Some _table) None)) (n :: c))
  | None, None, None, _ =>
      Ok (withPlan (mkLocalRelation (Some _table) None))
  end.

(** Lines 192-204: the three readings of the [schema] argument. *)
Definition arg_schema (schema : schema_arg) : option explicit_schema :=
  match schema with
  | SchemaAtomic t => Some (ExplicitAtomic t)
  | SchemaStruct s => Some (ExplicitStruct s)
  | _ => None
  end.

Definition arg_schema_str (schema : schema_arg) : option string :=
  match schema with SchemaStr s => Some s | _ => None end.

Definition arg_cols (schema : schema_arg) : option (list string) :=
  match schema with SchemaCols c => Some c | _ => None end.

Definition createDataFrame (data : data_arg value) (schema : schema_arg)
    : result (DataFrame value) :=
  match data with
  | ConnectDataFrame => Raise (TypeError "data is already a DataFrame")
  | _ =>
      let _schema := arg_schema schema in
      let _schema_str := arg_schema_str schema in
      let _cols := arg_cols schema in
      empty ← sized_and_empty data;
      if empty : bool then
        match _schema, _schema_str with
        | Some e, _ =>
            Ok (withPlan (mkLocalRelation None (Some (explicit_json e))))
        | None, Some str =>
            Ok (withPlan (mkLocalRelation None (Some (schema_str str))))
        | None, None => Raise empty_dataset
        end
      else
        built ← build_table data _schema _cols;
        validate_and_wrap _schema _schema_str built
  end.

(** The table a returned plan carries. *)
Fixpoint plan_table (df : DataFrame value) : option (Table value) :=
  match df with
  | withPlan plan => table plan
  | toDF df _ => plan_table df
  end.

(** The column names of the table of a returned plan. *)
Definition result_column_names (r : result (DataFrame value))
    : option (list string) :=
  match r with
  | Ok df => column_names <$> plan_table df
  | Raise _ => None
  end.

(** The schema a returned plan carries. *)
Fixpoint plan_schema_of (df : DataFrame value) : option plan_schema :=
  match df with
  | withPlan plan => schema plan
  | toDF df _ => plan_schema_of df
  end.

(** *** Definitions the statements use *)

(** The spec's reading of the fold in [_inferSchemaFromList]: all
    per-row schemas first, merged pairwise from the left. *)
Definition merge_all (s0 : StructType) (ss : list StructType)
    : result StructType :=
  fold_left (fun acc s => a ← acc; _merge_type a s) ss (Ok s0).

(** pyarrow converts every one of the arrays. *)
Definition arrow_accepts (arrays : list (list (option value))) : Prop :=
  Forall (fun a => pa_array_raises a = None) arrays.

(** pyarrow raises [cls] on one of the arrays and converts those before
    it. *)
Definition arrow_rejects (arrays : list (list (option value)))
    (cls : string) : Prop :=
  ∃ i a,
    arrays !! i = Some a ∧ pa_array_raises a = Some cls ∧
    ∀ j a', j < i → arrays !! j = Some a' → pa_array_raises a' = None.
End session.

(** What the loop over [enumerate(_cols)] leaves in [fields] and in
    [names], written by recursion on both lists. *)
Fixpoint renamed_fields (cs : list string) (fs : list StructField)
    : list StructField :=
  match cs, fs with
  | c :: cs', f :: fs' =>
      mkStructField c (dataType f) (nullable f) :: renamed_fields cs' fs'
  | _, _ => fs
  end.

Fixpoint renamed_names (cs ns : list string) : list string :=
  match cs, ns with
  | c :: cs', _ :: ns' => c :: renamed_names cs' ns'
  | _, _ => ns
  end.

(** ** The type unifier and the per-row inferrer, from the spec *)

(** The spec's [SchemaConflict]. *)
Definition SchemaConflict : exn := TypeError "SchemaConflict".

(** Modelled from the spec: the numeric families in widening order, as
    the "numeric widening" rule of the type unifier needs them
    ([pyspark.sql.types] is not among the sources). *)
Definition numeric_rank (t : AtomicType) : option nat :=
  match t with
  | ByteType => Some 0
  | ShortType => Some 1
  | IntegerType => Some 2
  | LongType => Some 3
  | FloatType => Some 4
  | DoubleType => Some 5
  | _ => None
  end.

(** Modelled from the spec: two atomic types, neither of them null, unify
    to themselves when equal and to the wider one when both are numeric;
    anything else is a conflict ([_merge_type] of [pyspark.sql.types] is
    not among the sources). *)
Definition widen (a b : AtomicType) : result AtomicType :=
  if decide (a = b) then Ok a
  else match numeric_rank a, numeric_rank b with
       | Some i, Some j => Ok (if i <? j then b else a)
       | _, _ => Raise SchemaConflict
       end.

Definition is_null (t : DataType) : bool :=
  match t with Atomic NullType => true | _ => false end.

(** Modelled from the spec: the type unifier, [_merge_type] of
    [pyspark.sql.types], which is not among the sources.  Null unifies with
    any type to that type; structured types unify field by field on
    matching names, in first-seen order, a field of one side only is kept
    and marked nullable, and a field that met a null is nullable. *)
Fixpoint unify (a b : DataType) : result DataType :=
  match a, b with
  | Atomic NullType, _ => Ok b
  | _, Atomic NullType => Ok a
  | Atomic x, Atomic y => Atomic <$> widen x y
  | Struct sa, Struct sb =>
      let fix go (fa : list StructField) : result (list StructField) :=
        match fa with
        | [] => Ok []
        | f :: fa' =>
            f' ← match List.find (fun g => String.eqb (name g) (name f))
                         (fields sb) with
                 | Some g =>
                     t ← unify (dataType f) (dataType g);
                     Ok (mkStructField (name f) t
                           (nullable f || nullable g
                            || is_null (dataType f) || is_null (dataType g)))
                 | None => Ok (mkStructField (name f) (dataType f) true)
                 end;
            rest ← go fa';
            Ok (f' :: rest)
        end in
      fs ← go (fields sa);
      let extra :=
        List.filter
          (fun g => negb (existsb (String.eqb (name g))
                            (map name (fields sa))))
          (fields sb) in
      Ok (Struct (struct_of
            (fs ++ map (fun g => mkStructField (name g) (dataType g) true)
                     extra)))
  | ArrayType ea, ArrayType eb => ArrayType <$> unify ea eb
  | MapType ka va, MapType kb vb =>
      k ← unify ka kb; v ← unify va vb; Ok (MapType k v)
  | _, _ => Raise SchemaConflict
  end.

(** The loop of [unify] over the fields of the left structured type,
    against the fields [fb] of the right one, by itself. *)
Definition merge_fields (fb : list StructField)
    : list StructField → result (list StructField) :=
  fix go (fa : list StructField) : result (list StructField) :=
    match fa with
    | [] => Ok []
    | f :: fa' =>
        f' ← match List.find (fun g => String.eqb (name g) (name f)) fb with
             | Some g =>
                 t ← unify (dataType f) (dataType g);
                 Ok (mkStructField (name f) t
                       (nullable f || nullable g
                        || is_null (dataType f) || is_null (dataType g)))
             | None => Ok (mkStructField (name f) (dataType f) true)
             end;
        rest ← go fa';
        Ok (f' :: rest)
    end.

(** The unifier on the structured types the fold works with. *)
Definition unify_struct (a b : StructType) : result StructType :=
  t ← unify (Struct a) (Struct b);
  match t with
  | Struct s => Ok s
  | _ => Raise SchemaConflict
  end.

(** Modelled from the spec: a type still holds an unresolved null,
    [_has_nulltype] of [pyspark.sql.types], which is not among the
    sources. *)
Fixpoint has_null (t : DataType) : bool :=
  match t with
  | Atomic NullType => true
  | Atomic _ => false
  | Struct s => existsb (fun f => has_null (dataType f)) (fields s)
  | ArrayType e => has_null e
  | MapType k v => has_null k || has_null v
  end.

Definition struct_has_null (s : StructType) : bool := has_null (Struct s).

(** Modelled from the spec: the per-row inferrer, [_infer_schema] of
    [pyspark.sql.types], which is not among the sources, over the external
    scalar inference [infer_scalar].  A scalar gives one field ["value"]
    (or the single explicit name), a sequence one field per position, named
    by the explicit names when their number matches and positionally
    otherwise, a record one field per field and a mapping one field per
    key in sorted order.  Every field starts nullable. *)
Definition infer_row {value} (infer_scalar : value → result DataType)
    (r : row value) (names : option (list string)) : result StructType :=
  let field kv :=
    t ← infer_scalar kv.2; Ok (mkStructField kv.1 t true) in
  let items :=
    match r with
    | RScalar v =>
        match names with
        | Some [n] => [(n, v)]
        | _ => [("value", v)]
        end
    | RSeq xs =>
        match names with
        | Some ns =>
            if length ns =? length xs then zip ns xs
            else zip (positional_names (length xs)) xs
        | None => zip (positional_names (length xs)) xs
        end
    | RRow its => its
    | RDict d => sorted_items d
    end in
  struct_of <$> mapM field items.

(** The collaborators [C] with the unifier and the null test of the spec. *)
Definition with_spec_unifier {value} (C : Collaborators value)
    : Collaborators value := {|
  _infer_schema := @_infer_schema value C;
  _merge_type := unify_struct;
  _has_nulltype := struct_has_null;
  Row_asDict := @Row_asDict value C;
  _check_series_convert_timestamps_internal :=
    @_check_series_convert_timestamps_internal value C;
  _get_local_timezone := @_get_local_timezone value C;
  astype := @astype value C
|}.

(** The schema of a row with the columns [cols] of the atomic types
    [tys], position by position. *)
Definition row_schema (cols : list string) (tys : list AtomicType)
    : StructType :=
  struct_of (zip_with (fun c t => mkStructField c (Atomic t) true) cols tys).

(** A column type after one more row: null gives way to the other. *)
Definition resolve (a b : AtomicType) : AtomicType :=
  match a with NullType => b | _ => a end.


(** ** A concrete instance

    Python values with integers, strings, booleans and [None], timestamps
    as integer counts of their unit since the epoch, and collaborators
    over them: the unifier and the inferrer above, [asDict] as the
    dictionary of the fields, and pandas 1.5 and pyarrow on these
    values. *)
Inductive pyval :=
| PNone
| PBool (b : bool)
| PInt (n : Z)
| PStr (s : string).

Definition infer_pyval (v : pyval) : result DataType :=
  Ok (Atomic match v with
             | PNone => NullType
             | PBool _ => BooleanType
             | PInt _ => LongType
             | PStr _ => StringType
             end).

(** A second is [10 ^ unit_exponent u] units [u]. *)
Definition unit_exponent (u : time_unit) : nat :=
  match u with unit_s => 0 | unit_ms => 3 | unit_us => 6 | unit_ns => 9 end.

(** How many units [v] make one unit [u], when [u] is the coarser or
    the same. *)
Definition units_per (u v : time_unit) : option Z :=
  if unit_exponent u <=? unit_exponent v
  then Some (10 ^ Z.of_nat (unit_exponent v - unit_exponent u))%Z
  else None.

(** A count of [from] units as a count of [to] units, when that is
    exact. *)
Definition exact_in (from to : time_unit) (v : pyval) : bool :=
  match v, units_per to from with
  | PInt n, Some k => (n `mod` k =? 0)%Z
  | _, _ => true
  end.

(** A count of [from] units as a count of the coarser unit [to], cut
    off. *)
Definition truncate_to (from to : time_unit) (v : pyval) : pyval :=
  match v, units_per to from with
  | PInt n, Some k => PInt (n `div` k)
  | _, _ => v
  end.

(** [_check_series_convert_timestamps_internal] with the local timezone
    UTC: the instants are kept and the series is in UTC afterwards. *)
Definition pyval_check_series (s : Series pyval) (tz : string)
    : result (Series pyval) :=
  match series_dtype s with
  | datetime64 u | datetime64tz u _ =>
      Ok (mkSeries (datetime64tz u "UTC") (series_values s))
  | other_dtype _ => Ok s
  end.

(** [Series.astype] of pandas 1.5 to a datetime dtype: a series without
    timezone stays in nanoseconds whatever unit is asked for; a series
    with timezone takes the unit asked for, cut off. *)
Definition pyval_astype (s : Series pyval) (d : dtype)
    : library (Series pyval) :=
  match series_dtype s, d with
  | datetime64tz u _, datetime64tz u' tz' =>
      Gives (mkSeries (datetime64tz u' tz')
               (map (truncate_to u u') (series_values s)))
  | _, _ => Gives s
  end.

Definition pyval_arrow_type (s : Series pyval) : library ArrowType :=
  Gives match series_dtype s with
        | datetime64 u => pa_timestamp u None
        | datetime64tz u tz => pa_timestamp u (Some tz)
        | other_dtype d => pa_other d
        end.

(** The conversion of a column of a frame to a timestamp type is
    checked: a value that does not fit the coarser unit is
    [ArrowInvalid]. *)
Definition pyval_from_pandas_raises (s : Series pyval) (t : ArrowType)
    : option string :=
  match series_dtype s, t with
  | datetime64 u, pa_timestamp u' _ | datetime64tz u _, pa_timestamp u' _ =>
      if forallb (exact_in u u') (series_values s) then None
      else Some "ArrowInvalid"
  | _, _ => None
  end.

(** [pa.array] on a list of these values: an integer outside 64 bits
    is [OverflowError], and values of more than one kind next to each
    other are [ArrowInvalid]; [None] goes with every kind. *)
Definition pyval_kind (v : pyval) : option nat :=
  match v with
  | PNone => None
  | PBool _ => Some 0
  | PInt _ => Some 1
  | PStr _ => Some 2
  end.

Definition in_int64 (v : pyval) : bool :=
  match v with
  | PInt n => ((- 2 ^ 63 <=? n) && (n <? 2 ^ 63))%Z
  | _ => true
  end.

Definition pyval_pa_array_raises (cells : list (option pyval))
    : option string :=
  let values := omap id cells in
  if negb (forallb in_int64 values) then Some "OverflowError"
  else match omap pyval_kind values with
       | [] => None
       | k :: ks => if forallb (Nat.eqb k) ks then None else Some "ArrowInvalid"
       end.

Global Instance pyval_collaborators : Collaborators pyval := {|
  _infer_schema := infer_row infer_pyval;
  _merge_type := unify_struct;
  _has_nulltype := struct_has_null;
  Row_asDict := py_dict;
  _check_series_convert_timestamps_internal := pyval_check_series;
  _get_local_timezone := "UTC";
  astype := pyval_astype
|}.

Global Instance pyval_arrow : Arrow pyval := {|
  arrow_type_of := pyval_arrow_type;
  from_pandas_raises := pyval_from_pandas_raises;
  pa_array_raises := pyval_pa_array_raises
|}.

(** Inputs of the concrete calls below. *)

Local Open Scope Z_scope.

Definition id_name_schema : StructType :=
  struct_of [mkStructField "id" (Atomic IntegerType) true;
             mkStructField "name" (Atomic StringType) true].

Definition a_b_schema : StructType :=
  struct_of [mkStructField "a" (Atomic LongType) true;
             mkStructField "b" (Atomic LongType) true].

Definition no_rows : data_arg pyval := Iterable true (SeqBatch []).

Definition b_then_a : dict pyval := [("b", PInt 1); ("a", PInt 2)].
Definition a_then_b : dict pyval := [("a", PInt 2); ("b", PInt 1)].

Definition array_2x1 : ndarray pyval := mkArray [2%nat; 1%nat] [PInt 1; PInt 2].
Definition array_2x2 : ndarray pyval :=
  mkArray [2%nat; 2%nat] [PInt 1; PInt 2; PInt 3; PInt 4].
Definition array_0x2x2 : ndarray pyval :=
  mkArray [0%nat; 2%nat; 2%nat] [].
Definition array_1x2x2 : ndarray pyval :=
  mkArray [1%nat; 2%nat; 2%nat] [PInt 1; PInt 2; PInt 3; PInt 4].

Definition a_b_c_schema : StructType :=
  struct_of [mkStructField "a" (Atomic LongType) true;
             mkStructField "b" (Atomic LongType) true;
             mkStructField "c" (Atomic LongType) true].

Definition two_wide : data_arg pyval :=
  Iterable true (SeqBatch [[PInt 1; PInt 2]]).

Definition three_wide : data_arg pyval :=
  Iterable true (SeqBatch [[PInt 1; PInt 2; PInt 3]]).

Definition timestamp_frame : PandasFrame pyval :=
  mkFrame 2
    [("t", mkSeries (datetime64 unit_ns) [PInt 1234567; PInt 1999]);
     ("x", mkSeries (other_dtype "int64") [PInt 1234567; PInt 1999])]
    [].

Definition null_then_typed : list (row pyval) :=
  [RDict [("a", PNone); ("b", PInt 1)]; RDict [("a", PInt 2); ("b", PNone)]].

Definition int_and_string : list pyval := [PInt 1; PStr "a"].

Local Close Scope Z_scope.

(** ** The session builder

    [SparkSession.Builder] of the same module.  The builder object is
    mutated in place and every method returns [self]; here a method takes
    the option map and returns the new one.  Keys are optional strings
    because [config()] without a key stores under [None].  [to_str] comes
    from [pyspark.sql.utils] and [str_value] is a Python [str] seen as a
    value.  The lock around [config] guards other threads and has no
    effect on one. *)

Inductive builder_exn :=
| KeyError (key : string)
| NotImplementedError (msg : string).

Inductive outcome (A : Type) :=
| Returns (a : A)
| Throws (e : builder_exn).
Arguments Returns {A} a.
Arguments Throws {A} e.

Section builder.
Context {V : Type} (str_value : string → V) (to_str : V → option string).

(** [Builder.__init__]: [self._options = {}] *)
Definition Builder_init : gmap (option string) (option string) := ∅.

(** [Builder.config(key, value, map=map)] *)
Definition config (key : option string) (value : V) (map : option (dict V))
    (self : gmap (option string) (option string))
    : gmap (option string) (option string) :=
  match map with
  | Some m => fold_left (fun o kv => <[Some kv.1 := to_str kv.2]> o) m self
  | None => <[key := to_str value]> self
  end.

(** [Builder.master]: nothing is stored. *)
Definition master (m : string) (self : gmap (option string) (option string))
    : gmap (option string) (option string) := self.

Definition appName (name : string)
    (self : gmap (option string) (option string)) :=
  config (Some "spark.app.name") (str_value name) None self.

(** [Builder.remote(location="sc://localhost")] *)
Definition remote (location : option string)
    (self : gmap (option string) (option string)) :=
  config (Some "spark.remote")
    (str_value (default "sc://localhost" location)) None self.

Definition enableHiveSupport (self : gmap (option string) (option string))
    : outcome (gmap (option string) (option string)) :=
  Throws (NotImplementedError
            "enableHiveSupport not implemented for Spark Connect").

(** [Builder.getOrCreate]: the connection string handed to
    [SparkSession(connectionString=...)], or the [KeyError] of the
    subscript. *)
Definition getOrCreate (self : gmap (option string) (option string))
    : outcome (option string) :=
  match self !! Some "spark.remote" with
  | Some c => Returns c
  | None => Throws (KeyError "spark.remote")
  end.
End builder.

(** ** Definitions the further statements use *)

Section inference_input.
Context {value : Type}.

(** The first element is a [Row] or a [dict] (line 292). *)
Definition is_record_batch (b : batch value) : bool :=
  match b with
  | RowBatch _ | DictBatch _ => true
  | _ => false
  end.

(** [[dict(sorted(d.items())) for d in _data]] (line 296) *)
Definition sorted_dicts (rows : list (dict value)) : list (dict value) :=
  map (fun d => py_dict (sorted_items d)) rows.

(** The rows as [_inferSchemaFromList] receives them when no explicit
    type is given: dictionaries sorted by key (line 296), [Row]s as they
    are. *)
Definition inference_input (b : batch value) : list (row value) :=
  match b with
  | DictBatch rows =>
      batch_rows (DictBatch (map (fun d => py_dict (sorted_items d)) rows))
  | _ => batch_rows b
  end.
End inference_input.

(** Inputs of the further concrete calls. *)

(** Collaborators whose inference always raises, to tell whether
    inference ran. *)
Definition failing_inference : Collaborators pyval := {|
  _infer_schema := fun _ _ => Raise (TypeError "inference ran");
  _merge_type := fun _ _ => Raise (TypeError "inference ran");
  _has_nulltype := fun _ => true;
  Row_asDict := py_dict;
  _check_series_convert_timestamps_internal := pyval_check_series;
  _get_local_timezone := "UTC";
  astype := pyval_astype
|}.

(** [to_str] on the concrete values: booleans in lower case, [None] as it
    is, the rest by [str]. *)
Definition pyval_to_str (v : pyval) : option string :=
  match v with
  | PNone => None
  | PBool true => Some "true"
  | PBool false => Some "false"
  | PInt n => Some (pretty n)
  | PStr s => Some s
  end.

Local Open Scope Z_scope.

Definition option_map_example : dict pyval :=
  [("spark.remote", PStr "sc://host"); ("spark.ui.enabled", PBool false)].

Definition array_3 : ndarray pyval := mkArray [3%nat] [PInt 1; PInt 2; PInt 3].

Definition null_only_dicts : batch pyval := DictBatch [[("a", PNone)]].

Definition int_then_string : list (row pyval) :=
  [RDict [("a", PInt 1)]; RDict [("a", PStr "x")]].

Definition growing_dicts : list (dict pyval) :=
  [[("a", PInt 1)]; [("a", PInt 2); ("b", PInt 3)]].

Definition two_column_frame : PandasFrame pyval :=
  mkFrame 1
    [("x", mkSeries (other_dtype "int64") [PInt 1]);
     ("y", mkSeries (other_dtype "int64") [PInt 2])]
    [].

Definition x_y_table : Table pyval :=
  mkTable ["x"; "y"]
    [mkColumn (Some (pa_other "int64")) [Some (PInt 1)];
     mkColumn (Some (pa_other "int64")) [Some (PInt 2)]].

Definition p_q_table : Table pyval :=
  mkTable ["p"; "q"]
    [mkColumn None [Some (PInt 1); Some (PInt 3)];
     mkColumn None [Some (PInt 2); Some (PInt 4)]].

Definition a_b_table : Table pyval :=
  mkTable ["a"; "b"]
    [mkColumn None [Some (PInt 2)]; mkColumn None [Some (PInt 1)]].

Definition b_a_table : Table pyval :=
  mkTable ["b"; "a"]
    [mkColumn None [Some (PInt 1)]; mkColumn None [Some (PInt 2)]].

Definition positional_table : Table pyval :=
  mkTable ["_1"; "_2"; "_3"]
    [mkColumn None [Some (PInt 1)]; mkColumn None [Some (PInt 2)];
     mkColumn None [Some (PInt 3)]].

Local Close Scope Z_scope.

(** * Properties *)

Lemma map_fmap {A B} (f : A → B) (l : list A) : map f l = f <$> l.
Proof. reflexivity. Qed.

(** ** Facts about the Python built-ins *)

Lemma leb_iff a b :
  String.leb a b = true ↔ String_as_OT.lt a b ∨ a = b.
Proof.
  unfold String.leb.
  destruct (String.compare a b) eqn:E.
  - apply String_as_OT.cmp_eq in E. naive_solver.
  - apply String_as_OT.cmp_lt in E. naive_solver.
  - split; [done|]. intros [H | ->].
    + apply String_as_OT.cmp_lt in H. unfold String_as_OT.cmp in H. congruence.
    + assert (String_as_OT.cmp b b = Eq) as H by by apply String_as_OT.cmp_eq.
      unfold String_as_OT.cmp in H. congruence.
Qed.

Lemma leb_trans a b c :
  String.leb a b = true → String.leb b c = true → String.leb a c = true.
Proof.
  rewrite !leb_iff. intros [H1 | ->] [H2 | ->]; eauto.
  left. by eapply String_as_OT.lt_trans.
Qed.

Lemma leb_flip a b : String.leb a b = false → String.leb b a = true.
Proof. destruct (String.leb_total a b); congruence. Qed.

Global Instance key_le_trans : Transitive key_le.
Proof. intros a b c. apply leb_trans. Qed.

Section dict_facts.
Context {V : Type}.
Implicit Types (x y : string * V) (l d : list (string * V)).

Lemma insert_item_comm x y l :
  x.1 ≠ y.1 →
  insert_item x (insert_item y l) = insert_item y (insert_item x l).
Proof.
  intros Hne. induction l as [|z l IH]; simpl.
  - destruct (String.leb x.1 y.1) eqn:Hxy, (String.leb y.1 x.1) eqn:Hyx;
      try done.
    + destruct Hne. by apply String.leb_antisym.
    + apply leb_flip in Hxy. congruence.
  - destruct (String.leb y.1 z.1) eqn:Hyz, (String.leb x.1 z.1) eqn:Hxz;
      simpl; rewrite ?Hyz, ?Hxz;
      destruct (String.leb x.1 y.1) eqn:Hxy, (String.leb y.1 x.1) eqn:Hyx;
      simpl; rewrite ?Hyz, ?Hxz; try done;
      try (destruct Hne; by apply String.leb_antisym);
      try (apply leb_flip in Hxy; congruence);
      try (rewrite (leb_trans _ _ _ Hxy Hyz) in Hxz; done);
      try (rewrite (leb_trans _ _ _ Hyx Hxz) in Hyz; done);
      by rewrite IH.
Qed.

Lemma sorted_items_perm d1 d2 :
  NoDup (keys d1) → d1 ≡ₚ d2 → sorted_items d1 = sorted_items d2.
Proof.
  intros Hnd Hp. unfold sorted_items.
  induction Hp as [|x l l' Hp IH|x y l|l l' l'' Hp1 IH1 Hp2 IH2]; simpl.
  - done.
  - apply NoDup_cons in Hnd as [_ Hnd]. by rewrite IH.
  - apply NoDup_cons in Hnd as [Hy _]. apply insert_item_comm.
    intros E. apply Hy. simpl. rewrite E. by left.
  - rewrite IH1 by done. apply IH2.
    assert (keys l ≡ₚ keys l') as Hk by (by apply fmap_Permutation).
    by rewrite <- Hk.
Qed.
Lemma insert_item_perm x l : insert_item x l ≡ₚ x :: l.
Proof.
  induction l as [|y l IH]; simpl; [done|].
  destruct (String.leb x.1 y.1); [done|].
  rewrite IH. apply Permutation_swap.
Qed.

Lemma sorted_items_Permutation d : sorted_items d ≡ₚ d.
Proof.
  induction d as [|x d IH]; simpl; [done|].
  by rewrite insert_item_perm, IH.
Qed.

Lemma insert_item_sorted x l :
  Sorted key_le (keys l) → Sorted key_le (keys (insert_item x l)).
Proof.
  induction l as [|y l IH]; simpl; intros Hs.
  - by repeat constructor.
  - destruct (String.leb x.1 y.1) eqn:Hxy; simpl.
    + constructor; [done|]. by constructor.
    + apply Sorted_inv in Hs as [Hs Hhd]. constructor; [by apply IH|].
      destruct l as [|z l]; simpl in *.
      * constructor. by apply leb_flip.
      * destruct (String.leb x.1 z.1); simpl; constructor.
        -- by apply leb_flip.
        -- by apply HdRel_inv in Hhd.
Qed.

Lemma sorted_items_sorted d : StronglySorted key_le (keys (sorted_items d)).
Proof.
  apply Sorted_StronglySorted; [apply _|].
  induction d as [|x d IH]; simpl; [constructor|].
  by apply insert_item_sorted.
Qed.

Lemma dict_set_fresh d k (v : V) :
  k ∉ keys d → dict_set d k v = d ++ [(k, v)].
Proof.
  induction d as [|[k' v'] d IH]; simpl; [done|].
  intros Hk. apply not_elem_of_cons in Hk as [Hne Hk].
  destruct (String.eqb_spec k k'); [done|]. by rewrite IH.
Qed.

Lemma py_dict_acc l : ∀ acc,
  NoDup (keys (acc ++ l)) →
  fold_left (fun d kv => dict_set d kv.1 kv.2) l acc = acc ++ l.
Proof.
  induction l as [|[k v] l IH]; intros acc Hnd; simpl.
  - by rewrite app_nil_r.
  - rewrite dict_set_fresh.
    + rewrite IH; rewrite <- app_assoc; done.
    + unfold keys in Hnd. rewrite fmap_app in Hnd.
      apply NoDup_app in Hnd as (_ & Hd & _).
      intros Hin. apply (Hd k Hin). simpl. by left.
Qed.

Lemma py_dict_NoDup l : NoDup (keys l) → py_dict l = l.
Proof. intros. by apply (py_dict_acc l []). Qed.

Lemma sorted_items_NoDup d : NoDup (keys d) → NoDup (keys (sorted_items d)).
Proof.
  intros Hnd.
  assert (keys (sorted_items d) ≡ₚ keys d) as ->; [|done].
  apply fmap_Permutation, sorted_items_Permutation.
Qed.
End dict_facts.

(** ** The error monad and the shape of a call *)

Lemma bind_Ok {A B} (a : A) (k : A → result B) : Ok a ≫= k = k a.
Proof. reflexivity. Qed.

Lemma bind_Raise {A B} (e : exn) (k : A → result B) : Raise e ≫= k = Raise e.
Proof. reflexivity. Qed.

(** ** Tables built by pyarrow *)

Section arrow_facts.
Context {value : Type} `{!Collaborators value} `{!Arrow value}.
Implicit Types (arrays : list (list (option value))).

Lemma convert_columns_accepts arrays :
  arrow_accepts arrays →
  convert_columns arrays = Ok (map (mkColumn None) arrays).
Proof.
  induction 1 as [|a arrays Ha _ IH]; simpl; [done|].
  by rewrite Ha, IH.
Qed.

Lemma convert_columns_rejects arrays cls :
  arrow_rejects arrays cls →
  convert_columns arrays = Raise (LibraryError cls).
Proof.
  intros (i & a & Hi & Ha & Hbefore). revert arrays Hi Hbefore.
  induction i as [|i IH]; intros [|a0 arrays] Hi Hbefore; try done; simpl.
  - injection Hi as ->. by rewrite Ha.
  - rewrite (Hbefore 0 a0) by (done || lia).
    rewrite IH; [done|done|].
    intros j a' Hj Hl. apply (Hbefore (S j) a'); [lia|done].
Qed.

Lemma convert_columns_Ok arrays cols :
  convert_columns arrays = Ok cols →
  arrow_accepts arrays ∧ cols = map (mkColumn None) arrays.
Proof.
  revert cols. induction arrays as [|a arrays IH]; intros cols; simpl.
  - intros [= <-]. split; [constructor|done].
  - destruct (pa_array_raises a) eqn:Ha; [done|].
    destruct (convert_columns arrays) as [cs|]; [|done].
    rewrite bind_Ok. intros [= <-].
    destruct (IH cs eq_refl) as [Hacc ->]. split; [by constructor|done].
Qed.

Lemma convert_columns_Raise arrays e :
  convert_columns arrays = Raise e → ∃ cls, arrow_rejects arrays cls ∧ e = LibraryError cls.
Proof.
  induction arrays as [|a arrays IH]; simpl; [done|].
  destruct (pa_array_raises a) as [cls|] eqn:Ha.
  - intros [= <-]. exists cls. split; [|done].
    exists 0, a. split; [done|]. split; [done|]. intros j a' Hj. lia.
  - destruct (convert_columns arrays) as [cs|e']; [done|].
    rewrite bind_Raise. intros [= <-].
    destruct (IH eq_refl) as (cls & (i & a1 & Hi & Ha1 & Hb) & ->).
    exists cls. split; [|done]. exists (S i), a1.
    split; [done|]. split; [done|].
    intros [|j] a' Hj Hl; simpl in Hl; [by injection Hl as <-|].
    apply (Hb j a'); [lia|done].
Qed.

Lemma from_arrays_accepts arrays names :
  arrow_accepts arrays →
  from_arrays arrays names = Ok (mkTable names (map (mkColumn None) arrays)).
Proof. intros Ha. unfold from_arrays. by rewrite convert_columns_accepts. Qed.

Lemma from_arrays_rejects arrays names cls :
  arrow_rejects arrays cls →
  from_arrays arrays names = Raise (LibraryError cls).
Proof. intros Ha. unfold from_arrays. by rewrite (convert_columns_rejects _ cls). Qed.

Lemma from_arrays_Ok arrays names t :
  from_arrays arrays names = Ok t →
  arrow_accepts arrays ∧ t = mkTable names (map (mkColumn None) arrays).
Proof.
  unfold from_arrays. destruct (convert_columns arrays) as [cs|] eqn:Hc; [|done].
  rewrite bind_Ok. intros [= <-].
  by destruct (convert_columns_Ok _ _ Hc) as [? ->].
Qed.

Lemma from_arrays_Raise arrays names e :
  from_arrays arrays names = Raise e → ∃ cls, e = LibraryError cls.
Proof.
  unfold from_arrays. destruct (convert_columns arrays) as [cs|e'] eqn:Hc; [done|].
  rewrite bind_Raise. intros [= <-].
  destruct (convert_columns_Raise _ _ Hc) as (cls & _ & ->). eauto.
Qed.

Lemma from_pylist_accepts (rows : list (dict value)) :
  arrow_accepts (pylist_arrays rows) →
  from_pylist rows
  = Ok (mkTable (pylist_names rows) (map (mkColumn None) (pylist_arrays rows))).
Proof. apply from_arrays_accepts. Qed.

Lemma from_pylist_rejects (rows : list (dict value)) cls :
  arrow_rejects (pylist_arrays rows) cls →
  from_pylist rows = Raise (LibraryError cls).
Proof. apply from_arrays_rejects. Qed.

Lemma from_pylist_Ok (rows : list (dict value)) t :
  from_pylist rows = Ok t →
  t = mkTable (pylist_names rows) (map (mkColumn None) (pylist_arrays rows)).
Proof. intros Hf. by apply from_arrays_Ok in Hf as [_ ->]. Qed.

Lemma arrow_accepts_or_rejects arrays :
  arrow_accepts arrays ∨ ∃ cls, arrow_rejects arrays cls.
Proof.
  destruct (convert_columns arrays) as [cs|e] eqn:Hc.
  - left. by apply convert_columns_Ok in Hc as [? _].
  - right. apply convert_columns_Raise in Hc as (cls & ? & _). eauto.
Qed.
End arrow_facts.

Section session_facts.
Context {value : Type} `{!Collaborators value} `{!Arrow value}.
Implicit Types (data : data_arg value) (schema : schema_arg).

Lemma createDataFrame_nonempty data schema :
  sized_and_empty data = Ok false →
  createDataFrame data schema =
    built ← build_table data (arg_schema schema) (arg_cols schema);
    validate_and_wrap (arg_schema schema) (arg_schema_str schema) built.
Proof.
  intros He. unfold createDataFrame. rewrite He.
  destruct data; try done.
Qed.

Lemma validate_and_wrap_table e str
    (built : Table value * option (list string) * option StructType) df :
  validate_and_wrap e str built = Ok df →
  plan_table df = Some built.1.1.
Proof.
  destruct built as [[t c] inf]. unfold validate_and_wrap.
  destruct e as [[?|s]|]; simpl;
    repeat (case_match; simpl; try done);
    intros [= <-]; done.
Qed.

Lemma createDataFrame_Ok_table data schema df t :
  createDataFrame data schema = Ok df →
  plan_table df = Some t →
  ∃ c inf, build_table data (arg_schema schema) (arg_cols schema)
           = Ok (t, c, inf).
Proof.
  intros Hdf Ht. destruct (sized_and_empty data) as [[]|e] eqn:He.
  - unfold createDataFrame in Hdf. rewrite He in Hdf.
    destruct data; try done; simpl in Hdf;
      destruct (arg_schema schema), (arg_schema_str schema);
      simplify_eq; done.
  - rewrite createDataFrame_nonempty in Hdf by done.
    destruct (build_table _ _ _) as [[[t' c] inf]|]; [|done].
    rewrite bind_Ok in Hdf. apply validate_and_wrap_table in Hdf. simpl in Hdf.
    exists c, inf. congruence.
  - unfold createDataFrame in Hdf. rewrite He in Hdf. by destruct data.
Qed.

Lemma seq_build_table sized (r : list value) rows e c :
  build_table (Iterable sized (SeqBatch (r :: rows))) e c
  = (let cols :=
       match c with
       | Some c => c
       | None => default_cols e None (SeqBatch (r :: rows))
       end in
     t ← from_pylist (map (fun item => dict_zip cols item) (r :: rows));
     Ok (t, Some cols, None)).
Proof. by destruct e as [[]|], c. Qed.
End session_facts.

(** ** Empty input, arrays, scalars and column counts *)

Section claims.
Context {value : Type} `{!Collaborators value} `{!Arrow value}.
Implicit Types (data : data_arg value) (schema : schema_arg).

(** C1, as the code has it.  For every sized input with
    [len(data) == 0], [createDataFrame] returns the zero-row plan (no
    table) typed by the supplied schema when an explicit schema was
    supplied, which is an atomic type, a structured type or a schema
    string, and raises the empty-dataset error when a list of column
    names or nothing was supplied.  No other outcome exists for an empty
    sized input. *)
Theorem createDataFrame_empty_input data schema :
  sized_and_empty data = Ok true →
  createDataFrame data schema =
    match schema with
    | SchemaAtomic t =>
        Ok (withPlan (mkLocalRelation None (Some (schema_json (Atomic t)))))
    | SchemaStruct s =>
        Ok (withPlan (mkLocalRelation None (Some (schema_json (Struct s)))))
    | SchemaStr str =>
        Ok (withPlan (mkLocalRelation None (Some (schema_str str))))
    | SchemaCols _ | SchemaNone => Raise empty_dataset
    end.
Proof.
  intros He. unfold createDataFrame. rewrite He.
  destruct data; [done|..]; by destruct schema.
Qed.

(** C7.  Whenever the table built for a call has a number of physical
    columns that differs from the number of fields of the explicit
    structured type, [createDataFrame] raises the length-mismatch error
    whose message spells both the physical column count and the field
    count. *)
Theorem createDataFrame_struct_field_count data s t cols inferred :
  sized_and_empty data = Ok false →
  build_table data (Some (ExplicitStruct s)) None = Ok (t, cols, inferred) →
  length (fields s) ≠ num_cols t →
  createDataFrame data (SchemaStruct s) =
    Raise (ValueError
             ("Length mismatch: Expected axis has " +:+ py_str (num_cols t)
              +:+ " elements, new values have "
              +:+ py_str (length (fields s)) +:+ " elements")).
Proof.
  intros He Hb Hn. rewrite createDataFrame_nonempty by done. simpl.
  rewrite Hb, bind_Ok. unfold validate_and_wrap.
  apply Nat.eqb_neq in Hn. by rewrite Hn.
Qed.

(** C8, as the code has it.  For every numeric array whose first axis
    is not empty: when the rank is neither 1 nor 2 [createDataFrame]
    raises the invalid-rank error, whatever the schema; when the rank is
    1 or 2 it never raises that error. *)
Theorem createDataFrame_array_rank (a : ndarray value) schema n rest :
  shape a = n :: rest →
  n ≠ 0 →
  (ndim a ≠ 1 → ndim a ≠ 2 →
   createDataFrame (Ndarray a) schema = Raise invalid_rank)
  ∧ (ndim a = 1 ∨ ndim a = 2 →
     createDataFrame (Ndarray a) schema ≠ Raise invalid_rank).
Proof.
  intros Hs Hn.
  assert (sized_and_empty (Ndarray a) = Ok false) as He.
  { unfold sized_and_empty. simpl. rewrite Hs. simpl.
    by apply Nat.eqb_neq in Hn as ->. }
  rewrite createDataFrame_nonempty by done. simpl. split.
  - intros H1 H2. unfold ndarray_branch.
    apply Nat.eqb_neq in H1 as ->. by apply Nat.eqb_neq in H2 as ->.
  - intros Hr. unfold ndarray_branch.
    assert ((ndim a =? 1) || (ndim a =? 2) = true) as ->.
    { destruct Hr as [-> | ->]; done. }
    cbn [negb].
    repeat match goal with
           | |- context [if ?b then _ else _] => destruct b; try done
           end.
    all: destruct (from_arrays _ _) as [t|e] eqn:Hf;
      [|by apply from_arrays_Raise in Hf as [cls ->]].
    all: rewrite !bind_Ok; unfold validate_and_wrap; simpl.
    all: repeat (case_match; simpl; try done).
Qed.

Lemma length_positional_names n : length (positional_names n) = n.
Proof. unfold positional_names. by rewrite length_map, length_seq. Qed.

(** C4, as the code has it.  For every array of rank 2 with at least
    one row and second-axis size [N].  Without a list of column names:
    when pyarrow converts every column, the table has one column per
    second-axis index, named ["_1"] to ["_N"] when [N] is not 1 and
    ["value"] when [N] is 1, and the call returns it, unless a
    structured type is given whose number of fields is not [N], which
    raises the length-mismatch error; when pyarrow raises on a column,
    the call raises that exception.  With a list of column names whose
    length differs from [N] the call raises the length-mismatch
    error. *)
Theorem createDataFrame_rank2_columns (a : ndarray value) schema R N :
  shape a = [R; N] →
  R ≠ 0 →
  (arg_cols schema = None →
   (arrow_accepts (map (array_column a) (seq 0 N)) →
    (∀ s, schema = SchemaStruct s → length (fields s) = N) →
    ∃ df t,
      createDataFrame (Ndarray a) schema = Ok df ∧
      plan_table df = Some t ∧
      column_names t
        = (if N =? 1 then ["value"] else positional_names N) ∧
      columns t = map (fun i => mkColumn None (array_column a i)) (seq 0 N))
   ∧ (arrow_accepts (map (array_column a) (seq 0 N)) →
      ∀ s, schema = SchemaStruct s → length (fields s) ≠ N →
      createDataFrame (Ndarray a) schema
        = Raise (length_mismatch N (length (fields s))))
   ∧ (∀ cls, arrow_rejects (map (array_column a) (seq 0 N)) cls →
      createDataFrame (Ndarray a) schema = Raise (LibraryError cls)))
  ∧ (∀ cols, schema = SchemaCols cols → length cols ≠ N →
     createDataFrame (Ndarray a) schema
       = Raise (length_mismatch N (length cols))).
Proof.
  intros Hs HR.
  assert (sized_and_empty (Ndarray a) = Ok false) as He.
  { unfold sized_and_empty. simpl. rewrite Hs. simpl.
    by apply Nat.eqb_neq in HR as ->. }
  assert (ndim a = 2) as Hd by (unfold ndim; by rewrite Hs).
  assert (shape1 a = N) as H1 by (unfold shape1; by rewrite Hs).
  rewrite createDataFrame_nonempty by done. simpl.
  unfold ndarray_branch. rewrite Hd, H1. simpl. split.
  - intros Hc. rewrite Hc.
    set (cols := if N =? 1 then ["value"] else positional_names N).
    assert (length cols = N) as Hl.
    { unfold cols. destruct (N =? 1) eqn:E.
      - by apply Nat.eqb_eq in E as ->.
      - apply length_positional_names. }
    rewrite Hl, Nat.eqb_refl. cbn [negb].
    assert (map (mkColumn None) (map (array_column a) (seq 0 N))
            = map (fun i => mkColumn None (array_column a i)) (seq 0 N))
      as Hm by (by rewrite map_map).
    split; [|split].
    + intros Hacc Hst. rewrite from_arrays_accepts, !bind_Ok by done.
      unfold validate_and_wrap, num_cols. cbn [columns].
      rewrite !length_map, length_seq, Hl, Nat.eqb_refl. simpl.
      destruct schema as [t|s|str|c|]; simpl; try done.
      * eauto 10.
      * rewrite (Hst s eq_refl), Nat.eqb_refl. simpl. eauto 10.
      * eauto 10.
      * destruct cols; simpl; eauto 10.
    + intros Hacc s -> Hne. rewrite from_arrays_accepts, !bind_Ok by done.
      unfold validate_and_wrap, num_cols. cbn [columns arg_schema].
      rewrite !length_map, length_seq.
      by apply Nat.eqb_neq in Hne as ->.
    + intros cls Hrej. by rewrite (from_arrays_rejects _ _ cls).
  - intros cols -> Hne. simpl.
    assert ((N =? length cols) = false) as ->; [|done].
    apply Nat.eqb_neq. congruence.
Qed.

Lemma take_1_zip (ns : list string) (item : value) :
  keys (dict_zip ns [item]) = take 1 ns
  ∧ ∀ n, n ∈ take 1 ns → dict_get (dict_zip ns [item]) n = Some item.
Proof.
  destruct ns as [|n0 ns]; simpl.
  - split; [done|]. by intros n ?%elem_of_nil.
  - unfold dict_zip. destruct ns; simpl; (split; [done|]).
    all: intros n ->%list_elem_of_singleton; by rewrite String.eqb_refl.
Qed.

Lemma pylist_scalars (ns : list string) (r : value) (rows : list value) :
  pylist_names (map (fun item => dict_zip ns [item]) (r :: rows)) = take 1 ns
  ∧ pylist_arrays (map (fun item => dict_zip ns [item]) (r :: rows))
    = map (fun _ => map Some (r :: rows)) (take 1 ns).
Proof.
  unfold pylist_arrays, pylist_names. cbn [map].
  destruct (take_1_zip ns r) as [-> _]. split; [done|].
  apply map_ext_in. intros n Hn%list_elem_of_In. rewrite map_map.
  change (Some r :: map Some rows) with (map Some (r :: rows)).
  change (dict_get (dict_zip ns [r]) n
          :: map (fun x => dict_get (dict_zip ns [x]) n) rows)
    with (map (fun x => dict_get (dict_zip ns [x]) n) (r :: rows)).
  apply map_ext. intros item. by apply take_1_zip.
Qed.

Lemma scalar_table (ns : list string) (r : value) (rows : list value) t :
  from_pylist (map (fun item => dict_zip ns [item]) (r :: rows)) = Ok t →
  column_names t = take 1 ns.
Proof.
  intros ->%from_pylist_Ok. cbn [column_names].
  by destruct (pylist_scalars ns r rows) as [-> _].
Qed.

Lemma scalar_build_table sized (r : value) (rows : list value) schema :
  build_table (Iterable sized (ScalarBatch (r :: rows))) (arg_schema schema)
    (arg_cols schema)
  = (let cols :=
       match schema with
       | SchemaNone | SchemaStr _ => ["_1"]
       | SchemaAtomic _ => ["value"]
       | SchemaStruct s => names s
       | SchemaCols cols => cols
       end in
     t ← from_pylist (map (fun item => dict_zip cols [item]) (r :: rows));
     Ok (t, Some cols, None)).
Proof. by destruct schema. Qed.

(** C6, as the code has it.  For every non-empty iterable of scalar
    rows: with no schema, and also under a schema string, the single
    column is named ["_1"], the positional default, and with an explicit
    atomic type it is named ["value"]; the call returns that table when
    pyarrow converts the column and raises pyarrow's exception when it
    does not.  Whatever the schema argument, the column of a returned
    table is named ["_1"], ["value"] only under an explicit atomic type,
    or by the first of the names a structured type or a list of names
    gives. *)
Theorem createDataFrame_scalar_default_name sized (rows : list value) :
  rows ≠ [] →
  (pa_array_raises (map Some rows) = None →
   createDataFrame (Iterable sized (ScalarBatch rows)) SchemaNone
     = Ok (toDF
             (withPlan
                (mkLocalRelation
                   (Some (mkTable ["_1"] [mkColumn None (map Some rows)]))
                   None))
             ["_1"])
   ∧ (∀ str,
        createDataFrame (Iterable sized (ScalarBatch rows)) (SchemaStr str)
          = Ok (withPlan
                  (mkLocalRelation
                     (Some (mkTable ["_1"] [mkColumn None (map Some rows)]))
                     (Some (schema_str str)))))
   ∧ (∀ t,
        createDataFrame (Iterable sized (ScalarBatch rows)) (SchemaAtomic t)
          = Ok (withPlan
                  (mkLocalRelation
                     (Some (mkTable ["value"] [mkColumn None (map Some rows)]))
                     (Some (schema_json (Atomic t)))))))
  ∧ (∀ cls schema,
       pa_array_raises (map Some rows) = Some cls →
       schema = SchemaNone ∨ (∃ str, schema = SchemaStr str)
       ∨ (∃ t, schema = SchemaAtomic t) →
       createDataFrame (Iterable sized (ScalarBatch rows)) schema
         = Raise (LibraryError cls))
  ∧ (∀ schema df t,
       createDataFrame (Iterable sized (ScalarBatch rows)) schema = Ok df →
       plan_table df = Some t →
       column_names t =
         match schema with
         | SchemaNone | SchemaStr _ => ["_1"]
         | SchemaAtomic _ => ["value"]
         | SchemaStruct s => take 1 (names s)
         | SchemaCols cols => take 1 cols
         end).
Proof.
  intros Hne. destruct rows as [|r rows]; [done|].
  assert (sized_and_empty (Iterable sized (ScalarBatch (r :: rows))) = Ok false)
    as He by (by destruct sized).
  assert (∀ n : string,
            pylist_names (map (fun item => dict_zip [n] [item]) (r :: rows)) = [n]
            ∧ pylist_arrays (map (fun item => dict_zip [n] [item]) (r :: rows))
              = [map Some (r :: rows)]) as Hsingle.
  { intros n. apply (pylist_scalars [n] r rows). }
  split; [|split].
  - intros Hacc.
    assert (∀ n : string,
              from_pylist (map (fun item => dict_zip [n] [item]) (r :: rows))
              = Ok (mkTable [n] [mkColumn None (map Some (r :: rows))])) as Hf.
    { intros n. rewrite from_pylist_accepts.
      - by destruct (Hsingle n) as [-> ->].
      - destruct (Hsingle n) as [_ ->]. by repeat constructor. }
    split; [|split]; [|intros str|intros t].
    all: rewrite createDataFrame_nonempty, scalar_build_table by done.
    all: cbv zeta; rewrite Hf; done.
  - intros cls schema Hrej Hschema.
    assert (∀ n : string,
              from_pylist (map (fun item => dict_zip [n] [item]) (r :: rows))
              = Raise (LibraryError cls)) as Hf.
    { intros n. apply from_pylist_rejects.
      destruct (Hsingle n) as [_ ->]. exists 0, (map Some (r :: rows)).
      split; [done|]. split; [done|]. intros j a' Hj. lia. }
    rewrite createDataFrame_nonempty, scalar_build_table by done.
    destruct Hschema as [->|[[str ->]|[t ->]]].
    all: cbv zeta; rewrite Hf; done.
  - intros schema df t Hdf Ht.
    destruct (createDataFrame_Ok_table _ _ _ _ Hdf Ht) as (c & inf & Hb).
    rewrite scalar_build_table in Hb. cbv zeta in Hb.
    destruct (from_pylist _) as [t'|] eqn:Hf; [|done].
    rewrite bind_Ok in Hb. injection Hb as -> _ _.
    apply scalar_table in Hf. rewrite Hf.
    by destruct schema as [?|s|?|cols|].
Qed.
End claims.

(** ** Sequence rows under a list of names *)

Section sequence_rows.
Context {value : Type} `{!Collaborators value} `{!Arrow value}.

(** A list of distinct names no longer than the first row is accepted
    when pyarrow converts the columns: the table has exactly the named
    columns and nothing is raised, however wide the rows are. *)
Lemma createDataFrame_short_names_accepted sized (r : list value) rows cols :
  NoDup cols →
  cols ≠ [] →
  length cols ≤ length r →
  arrow_accepts
    (pylist_arrays (map (fun item => dict_zip cols item) (r :: rows))) →
  ∃ t,
    createDataFrame (Iterable sized (SeqBatch (r :: rows))) (SchemaCols cols)
      = Ok (toDF (withPlan (mkLocalRelation (Some t) None)) cols) ∧
    column_names t = cols.
Proof.
  intros Hnd Hne Hlen Hacc.
  assert (sized_and_empty (Iterable sized (SeqBatch (r :: rows))) = Ok false)
    as He by (by destruct sized).
  rewrite createDataFrame_nonempty, seq_build_table by done.
  cbn [arg_cols]. cbv zeta.
  assert (keys (dict_zip cols r) = cols) as Hk.
  { unfold dict_zip. rewrite py_dict_NoDup; unfold keys; rewrite map_fmap.
    - by apply fst_zip.
    - by rewrite fst_zip. }
  rewrite from_pylist_accepts, !bind_Ok by done.
  unfold validate_and_wrap, num_cols, pylist_arrays, pylist_names.
  cbn [map columns]. rewrite Hk, !length_map, Nat.eqb_refl. simpl.
  destruct cols as [|c cols]; [done|]. eauto.
Qed.

(** An iterable without [len] that yields nothing reaches [_data[0]]. *)
Lemma createDataFrame_empty_generator (b : batch value) schema :
  batch_rows b = [] →
  createDataFrame (Iterable false b) schema
    = Raise (IndexError "list index out of range").
Proof.
  intros Hb. rewrite createDataFrame_nonempty by done. simpl.
  unfold iterable_branch, batch_is_empty. by rewrite Hb.
Qed.
End sequence_rows.

(** ** Dictionary rows *)

Section claims2.
Context {value : Type} `{!Collaborators value} `{!Arrow value}.
Implicit Types (data : data_arg value) (schema : schema_arg).

Lemma reduce_merge_schemas names rest ss : ∀ acc,
  Forall2 (fun r s => _infer_schema r names = Ok s) rest ss →
  fold_left
    (fun acc r => a ← acc; s ← _infer_schema r names; _merge_type a s)
    rest acc
  = fold_left (fun acc s => a ← acc; _merge_type a s) ss acc.
Proof.
  intros acc Hf. revert acc.
  induction Hf as [|r s rest ss Hr _ IH]; intros acc; simpl; [done|].
  rewrite <- IH. f_equal. destruct acc as [a|e]; [|done].
  by rewrite !bind_Ok, Hr.
Qed.

Lemma inferSchemaFromList_merge_all rows names s0 ss :
  Forall2 (fun r s => _infer_schema r names = Ok s) rows (s0 :: ss) →
  _inferSchemaFromList rows names =
    m ← merge_all s0 ss;
    if _has_nulltype m then Raise undetermined_types else Ok m.
Proof.
  intros Hf. apply Forall2_cons_inv_r in Hf as (r & rest & Hr & Hf & ->).
  unfold _inferSchemaFromList, reduce_merge, merge_all.
  by rewrite Hr, (reduce_merge_schemas names rest ss).
Qed.

(** C2, as the code has it.  When no explicit atomic or structured type
    is supplied, two collections of dictionary rows that differ only in
    the insertion order of the keys within rows give the same result of
    [createDataFrame] (the same plan, schema and column order, or the
    same exception), and the columns of a returned table are in sorted
    key order. *)
Theorem createDataFrame_dict_key_order sized
    (rows1 rows2 : list (dict value)) schema :
  arg_schema schema = None →
  Forall2 (fun d1 d2 => NoDup (keys d1) ∧ d1 ≡ₚ d2) rows1 rows2 →
  createDataFrame (Iterable sized (DictBatch rows1)) schema
    = createDataFrame (Iterable sized (DictBatch rows2)) schema
  ∧ ∀ df t,
      createDataFrame (Iterable sized (DictBatch rows1)) schema = Ok df →
      plan_table df = Some t →
      StronglySorted key_le (column_names t).
Proof.
  intros Hs Hf.
  assert (map (fun d => py_dict (sorted_items d)) rows1
          = map (fun d => py_dict (sorted_items d)) rows2) as Hmap.
  { induction Hf as [|d1 d2 l1 l2 [Hnd Hp] _ IH]; simpl; [done|].
    by rewrite IH, (sorted_items_perm d1 d2). }
  split.
  - destruct Hf as [|d1 d2 l1 l2 _ Hf]; [done|].
    apply Forall2_length in Hf.
    unfold createDataFrame, sized_and_empty, py_len. simpl.
    rewrite !length_map, Hf, Hs. destruct sized; simpl.
    all: unfold iterable_branch, batch_is_empty, infer_step; simpl.
    all: rewrite ?Hs.
    all: simpl in Hmap; injection Hmap as -> ->; done.
  - intros df t Hdf Ht.
    destruct (createDataFrame_Ok_table _ _ _ _ Hdf Ht) as (c & inf & Hb).
    simpl in Hb. unfold iterable_branch in Hb.
    destruct (batch_is_empty _) eqn:Hemp; [done|].
    unfold infer_step in Hb. rewrite Hs in Hb.
    destruct (_inferSchemaFromList _ _) as [s|]; [|done].
    rewrite bind_Ok in Hb.
    destruct (match arg_cols schema with Some c0 => apply_cols s c0 | None => Ok s end)
      as [s'|]; [|done].
    simpl in Hb.
    destruct (from_pylist _) as [t'|] eqn:Hp; [|done].
    simpl in Hb. injection Hb as -> _ _.
    apply from_pylist_Ok in Hp as ->.
    destruct Hf as [|d1 d2 l1 l2 [Hnd _] _]; [done|]. simpl.
    rewrite py_dict_NoDup by by apply sorted_items_NoDup.
    apply sorted_items_sorted.
Qed.
End claims2.

(** ** Merge first, validate once *)

Section unifier_facts.
Implicit Types (cols cs : list string) (xs ys ts : list AtomicType).

Local Abbreviation field_of :=
  (fun (c : string) (t : AtomicType) => mkStructField c (Atomic t) true).
Local Abbreviation null_or := (fun t ty : AtomicType => ty = NullType ∨ ty = t).

Lemma unify_Struct sa sb :
  unify (Struct sa) (Struct sb) =
    fs ← merge_fields (fields sb) (fields sa);
    Ok (Struct (struct_of
          (fs ++ map (fun g => mkStructField (name g) (dataType g) true)
                   (List.filter
                      (fun g => negb (existsb (String.eqb (name g))
                                        (map name (fields sa))))
                      (fields sb))))).
Proof. reflexivity. Qed.

Lemma unify_resolve x y t :
  null_or t x → null_or t y →
  unify (Atomic x) (Atomic y) = Ok (Atomic (resolve x y)).
Proof.
  intros [->| ->] [->| ->]; try done.
  - by destruct t.
  - destruct t; try done; simpl; unfold widen; by rewrite decide_True.
Qed.

Lemma null_or_resolve x y t : null_or t x → null_or t y → null_or t (resolve x y).
Proof. intros [->| ->] [->| ->]; destruct t; simpl; auto. Qed.

Lemma Forall2_null_or_resolve ts xs ys :
  Forall2 null_or ts xs → Forall2 null_or ts ys →
  Forall2 null_or ts (zip_with resolve xs ys).
Proof.
  intros Hx. revert ys. induction Hx as [|t x ts xs Hx _ IH]; intros ys Hy.
  - by apply Forall2_nil_inv_l in Hy as ->.
  - apply Forall2_cons_inv_l in Hy as (y & ys' & Hy & Hys & ->). simpl.
    constructor; [by apply null_or_resolve|by apply IH].
Qed.

Lemma find_field_middle c y : ∀ pre ypre cs ys,
  c ∉ pre → length pre = length ypre →
  List.find (fun g => String.eqb (name g) c)
    (zip_with field_of (pre ++ c :: cs) (ypre ++ y :: ys))
  = Some (field_of c y).
Proof.
  induction pre as [|p pre IH]; intros [|yp ypre] cs ys Hc Hl; try done; simpl.
  - by rewrite String.eqb_refl.
  - apply not_elem_of_cons in Hc as [Hne Hc].
    destruct (String.eqb_spec p c) as [->|_]; [done|].
    apply IH; [done|]. simpl in Hl. lia.
Qed.

Lemma merge_fields_rows cs : ∀ pre ypre xs ys ts,
  NoDup (pre ++ cs) → length pre = length ypre →
  Forall2 null_or ts xs → Forall2 null_or ts ys →
  merge_fields (zip_with field_of (pre ++ cs) (ypre ++ ys))
    (zip_with field_of cs xs)
  = Ok (zip_with field_of cs (zip_with resolve xs ys)).
Proof.
  induction cs as [|c cs IH]; intros pre ypre xs ys ts Hnd Hl Hx Hy; [done|].
  destruct Hx as [|t x ts xs Hx Hxs].
  { by apply Forall2_nil_inv_l in Hy as ->. }
  apply Forall2_cons_inv_l in Hy as (y & ys' & Hy & Hys & ->).
  cbn [zip_with merge_fields name dataType nullable].
  rewrite find_field_middle; [|by apply NoDup_app in Hnd as (_ & Hd & _);
    intros Hin; apply (Hd c Hin); left|done].
  cbn [dataType nullable name].
  rewrite (unify_resolve x y t), !bind_Ok by done.
  pose proof (IH (pre ++ [c]) (ypre ++ [y]) xs ys' ts) as IH'.
  rewrite <- !app_assoc in IH'. cbn [app] in IH'.
  fold (merge_fields
          (zip_with field_of (pre ++ c :: cs) (ypre ++ y :: ys'))).
  rewrite IH'; [done|done| |done|done].
  rewrite !length_app. simpl. lia.
Qed.

Lemma names_zip_with cs : ∀ xs ys,
  length xs = length ys →
  map name (zip_with field_of cs xs) = map name (zip_with field_of cs ys).
Proof.
  induction cs as [|c cs IH]; intros [|x xs] [|y ys] Hl; try done; simpl.
  f_equal. apply IH. simpl in Hl. lia.
Qed.

Lemma filter_known_names (ns : list string) (fs : list StructField) :
  Forall (fun g => name g ∈ ns) fs →
  List.filter (fun g => negb (existsb (String.eqb (name g)) ns)) fs = [].
Proof.
  induction 1 as [|g fs Hg _ IH]; [done|]. simpl.
  assert (existsb (String.eqb (name g)) ns = true) as ->; [|done].
  apply existsb_exists. exists (name g).
  split; [by apply list_elem_of_In|apply String.eqb_refl].
Qed.

Lemma unify_struct_rows cols xs ys ts :
  NoDup cols →
  Forall2 null_or ts xs → Forall2 null_or ts ys →
  unify_struct (row_schema cols xs) (row_schema cols ys)
  = Ok (row_schema cols (zip_with resolve xs ys)).
Proof.
  intros Hnd Hx Hy. unfold unify_struct. rewrite unify_Struct.
  pose proof (merge_fields_rows cols [] [] xs ys ts Hnd eq_refl Hx Hy) as Hm.
  cbn [app] in Hm.
  change (fields (row_schema cols xs)) with (zip_with field_of cols xs).
  change (fields (row_schema cols ys)) with (zip_with field_of cols ys).
  rewrite Hm, bind_Ok.
  rewrite filter_known_names.
  - cbn [map]. by rewrite app_nil_r.
  - rewrite (names_zip_with cols xs ys).
    + apply Forall_forall. intros g Hg. rewrite map_fmap.
      by apply list_elem_of_fmap_2.
    + apply Forall2_length in Hx, Hy. congruence.
Qed.

Lemma struct_has_null_at cols : ∀ tys j,
  tys !! j = Some NullType → j < length cols →
  struct_has_null (row_schema cols tys) = true.
Proof.
  unfold struct_has_null, row_schema, struct_of. cbn [has_null fields].
  induction cols as [|c cols IH]; intros [|ty tys] [|j] Hj Hl;
    simpl in *; try done; try lia.
  - by injection Hj as ->.
  - rewrite (IH tys j) by (done || lia). apply orb_true_r.
Qed.

Lemma struct_has_null_none cols : ∀ tys,
  Forall (fun ty => ty ≠ NullType) tys →
  struct_has_null (row_schema cols tys) = false.
Proof.
  unfold struct_has_null, row_schema, struct_of. cbn [has_null fields].
  induction cols as [|c cols IH]; intros tys Hn; [done|].
  destruct Hn as [|ty tys Hty Hn]; [done|]. simpl.
  rewrite IH by done. by destruct ty.
Qed.

(** The column types after all rows. *)
Lemma fold_resolve_null_or ts tyss : ∀ acc,
  Forall2 null_or ts acc → Forall (Forall2 null_or ts) tyss →
  Forall2 null_or ts (fold_left (zip_with resolve) tyss acc).
Proof.
  induction tyss as [|tys tyss IH]; intros acc Ha Hf; [done|].
  apply Forall_cons in Hf as [Ht Hf]. simpl.
  apply IH; [|done]. by apply Forall2_null_or_resolve.
Qed.

Lemma lookup_zip_with_resolve xs ys j :
  zip_with resolve xs ys !! j = x ← xs !! j; y ← ys !! j; Some (resolve x y).
Proof. apply lookup_zip_with. Qed.

Lemma fold_resolve_keeps ts tyss : ∀ acc j t,
  Forall2 null_or ts acc → Forall (Forall2 null_or ts) tyss →
  acc !! j = Some t → t ≠ NullType →
  fold_left (zip_with resolve) tyss acc !! j = Some t.
Proof.
  induction tyss as [|tys tyss IH]; intros acc j t Ha Hf Hj Ht; [done|].
  apply Forall_cons in Hf as [Hty Hf]. simpl.
  apply IH; [by apply Forall2_null_or_resolve|done| |done].
  rewrite lookup_zip_with_resolve, Hj. simpl.
  assert (is_Some (tys !! j)) as [y ->].
  { apply lookup_lt_is_Some. apply lookup_lt_Some in Hj.
    apply Forall2_length in Ha, Hty. lia. }
  simpl. by destruct t.
Qed.

Lemma fold_resolve_found ts tyss : ∀ acc j t,
  Forall2 null_or ts acc → Forall (Forall2 null_or ts) tyss →
  ts !! j = Some t → t ≠ NullType →
  (∃ tys, tys ∈ acc :: tyss ∧ tys !! j = Some t) →
  fold_left (zip_with resolve) tyss acc !! j = Some t.
Proof.
  induction tyss as [|tys tyss IH]; intros acc j t Ha Hf Hts Ht (r & Hin & Hr).
  - apply list_elem_of_singleton in Hin as ->. done.
  - apply elem_of_cons in Hin as [->|Hin].
    { by eapply fold_resolve_keeps. }
    pose proof Hf as Hf'. apply Forall_cons in Hf' as [Hty Hf'].
    simpl. apply (IH _ j t); [by apply Forall2_null_or_resolve|done..|].
    apply elem_of_cons in Hin as [->|Hin]; [|by exists r; split; [right|]].
    exists (zip_with resolve acc tys). split; [left|].
    rewrite lookup_zip_with_resolve, Hr.
    assert (is_Some (acc !! j)) as [x Hx].
    { apply lookup_lt_is_Some. apply lookup_lt_Some in Hts.
      apply Forall2_length in Ha. lia. }
    rewrite Hx. simpl. f_equal.
    destruct (Forall2_lookup_lr _ _ _ _ _ _ Ha Hts Hx) as [->| ->]; [done|].
    by destruct t.
Qed.

Lemma fold_resolve_null ts tyss : ∀ acc j,
  Forall2 null_or ts acc → Forall (Forall2 null_or ts) tyss →
  (∀ tys, tys ∈ acc :: tyss → tys !! j = Some NullType) →
  fold_left (zip_with resolve) tyss acc !! j = Some NullType.
Proof.
  induction tyss as [|tys tyss IH]; intros acc j Ha Hf Hnull.
  - apply Hnull. left.
  - pose proof Hf as Hf'. apply Forall_cons in Hf' as [Hty Hf']. simpl.
    apply IH; [by apply Forall2_null_or_resolve|done|].
    intros r [->|Hin]%elem_of_cons.
    + rewrite lookup_zip_with_resolve, (Hnull acc), (Hnull tys); [done|..].
      * right. left.
      * left.
    + apply Hnull. by do 2 right.
Qed.
End unifier_facts.

Section claim_null_resolves.
Context {value : Type} (C : Collaborators value).

Local Abbreviation null_or := (fun t ty : AtomicType => ty = NullType ∨ ty = t).
Local Abbreviation merge := (@merge_all value (with_spec_unifier C)).

Lemma merge_all_rows cols ts tyss : ∀ acc,
  NoDup cols →
  Forall2 null_or ts acc → Forall (Forall2 null_or ts) tyss →
  merge (row_schema cols acc) (map (row_schema cols) tyss)
  = Ok (row_schema cols (fold_left (zip_with resolve) tyss acc)).
Proof.
  induction tyss as [|tys tyss IH]; intros acc Hnd Ha Hf; [done|].
  apply Forall_cons in Hf as [Hty Hf].
  unfold merge_all. cbn [map fold_left]. rewrite bind_Ok.
  change (@_merge_type value (with_spec_unifier C)) with unify_struct.
  rewrite (unify_struct_rows cols acc tys ts) by done.
  apply (IH (zip_with resolve acc tys)); [done| |done].
  by apply Forall2_null_or_resolve.
Qed.

(** C3.  Schema inference folds all per-row schemas into one merged
    schema, pairwise from the left, and tests for an unresolved null
    once, on the merged schema: this holds for every collection of rows
    whose schemas are inferred, whatever the unifier and the null test.
    With the unifier of the spec, for rows with the columns [cols] where
    the column at position [j] is null in some rows and of the type
    [ts[j]] in the others: when every column has its type in at least
    one row, early or late, the inference returns the schema with the
    types [ts]; when some column is null in every row, it raises the
    indeterminate-type error. *)
Theorem inferSchemaFromList_merge_then_validate rows names s0 ss :
  Forall2 (fun r s => @_infer_schema value C r names = Ok s) rows (s0 :: ss) →
  @_inferSchemaFromList value C rows names =
    (m ← @merge_all value C s0 ss;
     if @_has_nulltype value C m then Raise undetermined_types else Ok m)
  ∧ ∀ cols ts tyss,
      NoDup cols →
      length ts = length cols →
      s0 :: ss = map (row_schema cols) tyss →
      Forall (Forall2 (fun t ty => ty = NullType ∨ ty = t) ts) tyss →
      ((∀ j t, ts !! j = Some t →
          t ≠ NullType ∧ ∃ tys, tys ∈ tyss ∧ tys !! j = Some t) →
       @_inferSchemaFromList value (with_spec_unifier C) rows names
         = Ok (row_schema cols ts))
      ∧ (∀ j, j < length cols →
           (∀ tys, tys ∈ tyss → tys !! j = Some NullType) →
           @_inferSchemaFromList value (with_spec_unifier C) rows names
             = Raise undetermined_types).
Proof.
  intros Hf. split.
  { by apply inferSchemaFromList_merge_all. }
  intros cols ts tyss Hnd Hlen Hrows Hc.
  destruct tyss as [|tys0 tyss]; [done|].
  injection Hrows as -> ->.
  apply Forall_cons in Hc as [Hc0 Hc].
  rewrite (@inferSchemaFromList_merge_all value (with_spec_unifier C)
             rows names (row_schema cols tys0) (map (row_schema cols) tyss) Hf).
  rewrite (merge_all_rows cols ts tyss tys0) by done. rewrite bind_Ok.
  change (@_has_nulltype value (with_spec_unifier C)) with struct_has_null.
  pose proof (fold_resolve_null_or ts tyss tys0 Hc0 Hc) as Hm.
  split.
  - intros Hres.
    assert (fold_left (zip_with resolve) tyss tys0 = ts) as ->.
    { apply list_eq. intros j. destruct (ts !! j) as [t|] eqn:Ht.
      - destruct (Hres j t Ht) as [Hne Hin].
        by apply (fold_resolve_found ts).
      - apply lookup_ge_None. apply lookup_ge_None in Ht.
        apply Forall2_length in Hm. lia. }
    rewrite struct_has_null_none; [done|].
    apply Forall_lookup. intros j t Ht. by destruct (Hres j t Ht).
  - intros j Hj Hnull.
    rewrite (struct_has_null_at cols _ j); [done| |done].
    by apply (fold_resolve_null ts).
Qed.
End claim_null_resolves.

(** ** Renaming the inferred fields *)

Section rename.
Context {value : Type} `{!Collaborators value} `{!Arrow value}.

Lemma apply_cols_from cs : ∀ k pf pn fs ns,
  length pf = k → length pn = k →
  length cs ≤ length fs → length cs ≤ length ns →
  fold_left (fun acc p => s ← acc; rename_at s p.1 p.2)
    (zip (seq k (length cs)) cs) (Ok (mkStructType (pf ++ fs) (pn ++ ns)))
  = Ok (mkStructType (pf ++ renamed_fields cs fs)
          (pn ++ renamed_names cs ns)).
Proof.
  induction cs as [|c cs IH]; intros k pf pn fs ns Hpf Hpn Hfs Hns;
    [done|].
  destruct fs as [|f fs]; [simpl in Hfs; lia|].
  destruct ns as [|n ns]; [simpl in Hns; lia|].
  simpl in *. unfold rename_at at 2. cbn [fields names].
  rewrite list_lookup_middle by done.
  rewrite decide_True by (rewrite length_app; simpl; lia).
  assert (<[k:=mkStructField c (dataType f) (nullable f)]> (pf ++ f :: fs)
          = (pf ++ [mkStructField c (dataType f) (nullable f)]) ++ fs)
    as ->.
  { rewrite <- Hpf, <- app_assoc. replace (length pf) with (length pf + 0) by lia.
    by rewrite insert_app_r. }
  assert (<[k:=c]> (pn ++ n :: ns) = (pn ++ [c]) ++ ns) as ->.
  { rewrite <- Hpn, <- app_assoc. replace (length pn) with (length pn + 0) by lia.
    by rewrite insert_app_r. }
  rewrite (cons_middle _ pf (renamed_fields cs fs)).
  rewrite (cons_middle c pn (renamed_names cs ns)), !app_assoc.
  apply IH; rewrite ?length_app; simpl; lia.
Qed.

Lemma apply_cols_closed_form s cols :
  length cols ≤ length (fields s) →
  length cols ≤ length (names s) →
  apply_cols s cols
  = Ok (mkStructType (renamed_fields cols (fields s))
          (renamed_names cols (names s))).
Proof.
  intros Hf Hn. destruct s as [fs ns]. unfold apply_cols.
  by apply (apply_cols_from cols 0 [] []).
Qed.

Lemma length_renamed_fields cs fs :
  length (renamed_fields cs fs) = length fs.
Proof.
  revert fs. induction cs as [|c cs IH]; intros [|f fs]; simpl; auto.
Qed.

Lemma length_renamed_names cs ns :
  length (renamed_names cs ns) = length ns.
Proof.
  revert ns. induction cs as [|c cs IH]; intros [|n ns]; simpl; auto.
Qed.

Lemma lookup_renamed_fields cs fs i :
  renamed_fields cs fs !! i =
    f ← fs !! i;
    Some (match cs !! i with
          | Some c => mkStructField c (dataType f) (nullable f)
          | None => f
          end).
Proof.
  revert fs i. induction cs as [|c cs IH]; intros [|f fs] [|i]; simpl;
    try done; try apply IH.
  by destruct (fs !! i).
Qed.

Lemma lookup_renamed_names cs ns i :
  renamed_names cs ns !! i =
    n ← ns !! i; Some (default n (cs !! i)).
Proof.
  revert ns i. induction cs as [|c cs IH]; intros [|n ns] [|i]; simpl;
    try done; try apply IH.
  by destruct (ns !! i).
Qed.

(** C10.  Applying a list of column names to an inferred schema whose
    [fields] and [names] are in lock-step, with no more names than
    fields, succeeds and renames positionally: the i-th name becomes
    both [names[i]] and [fields[i].name], types and nullability are
    kept, positions past the list are untouched, and [fields] and
    [names] are in lock-step afterwards. *)
Theorem apply_cols_lock_step s cols :
  lock_step s →
  length cols ≤ length (fields s) →
  ∃ s',
    apply_cols s cols = Ok s' ∧
    lock_step s' ∧
    length (fields s') = length (fields s) ∧
    (∀ i n, cols !! i = Some n →
       names s' !! i = Some n ∧ name <$> fields s' !! i = Some n) ∧
    (∀ i, dataType <$> fields s' !! i = dataType <$> fields s !! i ∧
          nullable <$> fields s' !! i = nullable <$> fields s !! i) ∧
    (∀ i, length cols ≤ i →
       fields s' !! i = fields s !! i ∧ names s' !! i = names s !! i).
Proof.
  intros [Hlen Hnames] Hc.
  eexists. split; [apply apply_cols_closed_form; lia|]. simpl.
  split; [|split; [|split; [|split]]].
  - split; simpl.
    + by rewrite length_renamed_fields, length_renamed_names.
    + intros i f. rewrite lookup_renamed_fields, lookup_renamed_names.
      destruct (fields s !! i) as [f0|] eqn:Hf; [|done].
      rewrite (Hnames _ _ Hf). simpl. intros [= <-].
      by destruct (cols !! i).
  - apply length_renamed_fields.
  - intros i n Hi.
    rewrite lookup_renamed_fields, lookup_renamed_names, Hi.
    assert (i < length (fields s)) as Hlt.
    { apply lookup_lt_Some in Hi. lia. }
    destruct (lookup_lt_is_Some_2 _ _ Hlt) as [f Hf].
    by rewrite Hf, (Hnames _ _ Hf).
  - intros i. rewrite lookup_renamed_fields.
    destruct (fields s !! i); [|done]. simpl. by destruct (cols !! i).
  - intros i Hi. rewrite lookup_renamed_fields, lookup_renamed_names.
    rewrite (lookup_ge_None_2 cols i) by done.
    destruct (fields s !! i), (names s !! i); done.
Qed.
End rename.

(** ** Tabular frames *)

Section pandas.
Context {value : Type} `{!Collaborators value} `{!Arrow value}.

Lemma mapM_Ok_length {A B} (f : A → result B) (l : list A) k :
  mapM f l = Ok k → length k = length l.
Proof.
  revert k. induction l as [|x l IH]; intros k; simpl.
  - by intros [= <-].
  - destruct (f x) as [y|]; [|done]. rewrite bind_Ok.
    destruct (mapM f l) as [k'|]; [|done]. rewrite bind_Ok.
    intros [= <-]. simpl. by rewrite (IH k').
Qed.

Lemma cast_columns_length sch : ∀ cols (cs : list (Column value)),
  cast_columns sch cols = Ok cs →
  length cs = length sch `min` length cols.
Proof.
  induction sch as [|f sch IH]; intros [|c cols] cs; simpl;
    try (by intros [= <-]).
  destruct (from_pandas_raises c.2 f.2); [done|].
  destruct (cast_columns sch cols) as [rest|] eqn:Hr; [|done].
  rewrite bind_Ok. intros [= <-]. simpl. by rewrite (IH cols rest).
Qed.

Lemma Table_from_pandas_shape (df : PandasFrame value) sch t :
  Table_from_pandas df sch = Ok t →
  (∀ s, sch = Some s → length s = length (arrow_columns df)) →
  length (column_names t) = num_cols t
  ∧ num_cols t = length (arrow_columns df).
Proof.
  unfold Table_from_pandas, num_cols. intros Ht Hs.
  destruct sch as [s|].
  - destruct (cast_columns s _) as [cs|] eqn:Hc; [|done].
    rewrite bind_Ok in Ht. injection Ht as <-. simpl.
    apply cast_columns_length in Hc. rewrite length_map, Hc.
    rewrite (Hs s eq_refl). lia.
  - destruct (Schema_from_pandas df) as [s|] eqn:Hsch; [|done].
    rewrite bind_Ok in Ht. injection Ht as <-. simpl.
    apply mapM_Ok_length in Hsch.
    rewrite length_map, length_zip_with, Hsch. lia.
Qed.

(** Without a column of a datetime dtype the table is built from the
    caller's frame itself: nothing is copied. *)
Lemma pandas_branch_without_timestamps (data : PandasFrame value) :
  has_timestamp_data data = false →
  pandas_branch data = (t ← Table_from_pandas data None; Ok (TheInput, t)).
Proof. intros Hts. unfold pandas_branch. by rewrite Hts. Qed.

Lemma pandas_branch_shape (data : PandasFrame value) r t :
  pandas_branch data = Ok (r, t) →
  length (column_names t) = num_cols t
  ∧ num_cols t = length (frame_columns data) + length (frame_index data).
Proof.
  unfold pandas_branch. destruct (has_timestamp_data data).
  - destruct (mapM _ (frame_columns data)) as [cols|] eqn:Hcols; [|done].
    rewrite bind_Ok. cbv zeta.
    destruct (Schema_from_pandas _) as [sch|] eqn:Hsch; [|done].
    rewrite bind_Ok.
    destruct (Table_from_pandas _ _) as [t'|] eqn:Ht; [|done].
    rewrite bind_Ok. intros [= _ <-].
    apply mapM_Ok_length in Hcols, Hsch.
    apply Table_from_pandas_shape in Ht as [H1 H2].
    + split; [done|]. rewrite H2. unfold arrow_columns. simpl.
      rewrite length_app. lia.
    + intros s [= <-]. by rewrite length_map.
  - destruct (Table_from_pandas data None) as [t'|] eqn:Ht; [|done].
    rewrite bind_Ok. intros [= _ <-].
    apply Table_from_pandas_shape in Ht as [H1 H2]; [|done].
    split; [done|]. rewrite H2. unfold arrow_columns. by rewrite length_app.
Qed.
End pandas.

(** ** The renaming loop with too many names *)

Section rename_overflow.
Context {value : Type} `{!Collaborators value} `{!Arrow value}.

Lemma fold_rename_Raise (l : list (nat * string)) e :
  fold_left (fun acc p => s ← acc; rename_at s p.1 p.2) l (Raise e)
  = Raise e.
Proof. induction l as [|p l IH]; [done|]. simpl. apply IH. Qed.

Lemma apply_cols_overflow cs : ∀ k pf pn fs ns,
  length pf = k → length pn = k →
  length fs = length ns → length fs < length cs →
  fold_left (fun acc p => s ← acc; rename_at s p.1 p.2)
    (zip (seq k (length cs)) cs) (Ok (mkStructType (pf ++ fs) (pn ++ ns)))
  = Raise (IndexError "list index out of range").
Proof.
  induction cs as [|c cs IH]; intros k pf pn fs ns Hpf Hpn Hlen Hlt;
    [simpl in Hlt; lia|].
  destruct fs as [|f fs], ns as [|n ns]; try done.
  - simpl. unfold rename_at at 2. cbn [fields names].
    rewrite app_nil_r, lookup_ge_None_2 by lia. apply fold_rename_Raise.
  - simpl in *. unfold rename_at at 2. cbn [fields names].
    rewrite list_lookup_middle by done.
    rewrite decide_True by (rewrite length_app; simpl; lia).
    assert (<[k:=mkStructField c (dataType f) (nullable f)]> (pf ++ f :: fs)
            = (pf ++ [mkStructField c (dataType f) (nullable f)]) ++ fs)
      as ->.
    { rewrite <- Hpf, <- app_assoc.
      replace (length pf) with (length pf + 0) by lia.
      by rewrite insert_app_r. }
    assert (<[k:=c]> (pn ++ n :: ns) = (pn ++ [c]) ++ ns) as ->.
    { rewrite <- Hpn, <- app_assoc.
      replace (length pn) with (length pn + 0) by lia.
      by rewrite insert_app_r. }
    apply IH; rewrite ?length_app; simpl; lia.
Qed.

(** More names than fields: the loop raises [IndexError]. *)
Lemma apply_cols_too_many s cols :
  lock_step s →
  length (fields s) < length cols →
  apply_cols s cols = Raise (IndexError "list index out of range").
Proof.
  intros [Hlen _] Hlt. destruct s as [fs ns]. unfold apply_cols.
  by apply (apply_cols_overflow cols 0 [] []).
Qed.
End rename_overflow.

(** ** Concrete calls *)

(** The spec's example: an empty collection with the structured type
    [{id: integer, name: string}] gives a zero-row plan with that type. *)
Lemma createDataFrame_empty_input_witness :
  sized_and_empty no_rows = Ok true ∧
  createDataFrame no_rows (SchemaStruct id_name_schema)
    = Ok (withPlan
            (mkLocalRelation None
               (Some (schema_json (Struct id_name_schema))))).
Proof.
  split; [reflexivity|].
  apply (createDataFrame_empty_input no_rows (SchemaStruct id_name_schema)).
  reflexivity.
Defined.

(** C1 as stated fails: with an explicit atomic type, which is neither a
    structured type nor a schema string, an empty input is valid too. *)
Lemma createDataFrame_empty_atomic :
  ¬ ∀ (data : data_arg pyval) (schema : schema_arg),
      sized_and_empty data = Ok true →
      (is_ok (createDataFrame data schema) = true ↔
       (∃ s, schema = SchemaStruct s) ∨ (∃ s, schema = SchemaStr s)).
Proof.
  intros H.
  destruct (H no_rows (SchemaAtomic LongType) eq_refl) as [Hok _].
  destruct (Hok eq_refl) as [[s Hs] | [s Hs]]; discriminate.
Qed.

Lemma createDataFrame_dict_key_order_witness :
  arg_schema SchemaNone = None ∧
  Forall2 (fun d1 d2 => NoDup (keys d1) ∧ d1 ≡ₚ d2) [b_then_a] [a_then_b] ∧
  createDataFrame (Iterable true (DictBatch [b_then_a])) SchemaNone
    = createDataFrame (Iterable true (DictBatch [a_then_b])) SchemaNone.
Proof.
  assert (Forall2 (fun d1 d2 : dict pyval => NoDup (keys d1) ∧ d1 ≡ₚ d2)
            [b_then_a] [a_then_b]) as Hf.
  { constructor; [|constructor]. split.
    - apply (bool_decide_unpack _). reflexivity.
    - apply Permutation_swap. }
  split; [reflexivity|]. split; [exact Hf|].
  exact (proj1 (createDataFrame_dict_key_order true [b_then_a] [a_then_b]
                  SchemaNone eq_refl Hf)).
Defined.

(** C2 as stated fails: with an explicit structured type the dictionaries
    are not sorted, and the columns of the table follow the insertion
    order of the first row. *)
Lemma createDataFrame_dict_key_order_explicit_schema :
  b_then_a ≡ₚ a_then_b ∧
  result_column_names
    (createDataFrame (Iterable true (DictBatch [b_then_a]))
       (SchemaStruct a_b_schema)) = Some ["b"; "a"] ∧
  result_column_names
    (createDataFrame (Iterable true (DictBatch [a_then_b]))
       (SchemaStruct a_b_schema)) = Some ["a"; "b"].
Proof. split; [apply Permutation_swap|]. split; reflexivity. Qed.

(** Two columns, each null in one row and an integer in the other, are
    inferred as two integer columns. *)
Lemma inferSchemaFromList_merge_then_validate_witness :
  @_inferSchemaFromList pyval (with_spec_unifier pyval_collaborators)
    null_then_typed None
  = Ok (row_schema ["a"; "b"] [LongType; LongType]).
Proof.
  assert (Forall2
            (fun r s => @_infer_schema pyval pyval_collaborators r None = Ok s)
            null_then_typed
            [row_schema ["a"; "b"] [NullType; LongType];
             row_schema ["a"; "b"] [LongType; NullType]]) as Hf
    by repeat constructor.
  refine (proj1 (proj2 (inferSchemaFromList_merge_then_validate
                          pyval_collaborators null_then_typed None _ _ Hf)
                   ["a"; "b"] [LongType; LongType]
                   [[NullType; LongType]; [LongType; NullType]]
                   _ eq_refl eq_refl _) _).
  - apply (bool_decide_unpack _). reflexivity.
  - constructor; [|constructor; [|constructor]].
    + constructor; [by left|]. constructor; [by right|]. constructor.
    + constructor; [by right|]. constructor; [by left|]. constructor.
  - intros [|[|j]] t [= <-]; (split; [discriminate|]).
    + exists [LongType; NullType]. split; [right; left|reflexivity].
    + exists [NullType; LongType]. split; [left|reflexivity].
Defined.

Lemma createDataFrame_rank2_columns_witness :
  shape array_2x2 = [2%nat; 2%nat] ∧
  ∃ df t,
    createDataFrame (Ndarray array_2x2) SchemaNone = Ok df ∧
    plan_table df = Some t ∧
    column_names t = ["_1"; "_2"] ∧
    columns t =
      [mkColumn None [Some (PInt 1); Some (PInt 3)];
       mkColumn None [Some (PInt 2); Some (PInt 4)]].
Proof.
  split; [reflexivity|].
  assert (2%nat ≠ 0%nat) as Hne by discriminate.
  refine (proj1 (proj1 (createDataFrame_rank2_columns array_2x2 SchemaNone
                          2 2 eq_refl Hne) eq_refl)
            _ (fun s H => match H with end)).
  repeat constructor.
Defined.

(** C4 as stated fails: a rank-2 array whose second axis has size 1 gets
    the column name ["value"], not ["_1"]. *)
Lemma createDataFrame_rank2_single_column :
  shape array_2x1 = [2%nat; 1%nat] ∧
  positional_names 1 = ["_1"] ∧
  result_column_names (createDataFrame (Ndarray array_2x1) SchemaNone)
    = Some ["value"].
Proof. repeat split. Qed.

(** C5 fails on the code: names [["x", "y"]] against a 3-wide row give a
    two-column table, the third value of the row is dropped, and no
    exception is raised. *)
Theorem createDataFrame_short_names_drop_values :
  createDataFrame three_wide (SchemaCols ["x"; "y"])
  = Ok (toDF
          (withPlan
             (mkLocalRelation
                (Some (mkTable ["x"; "y"]
                         [mkColumn None [Some (PInt 1)];
                          mkColumn None [Some (PInt 2)]]))
                None))
          ["x"; "y"]).
Proof. reflexivity. Qed.

(** The sibling case the validation does catch: more names than values. *)
Lemma createDataFrame_long_names_rejected :
  createDataFrame three_wide (SchemaCols ["w"; "x"; "y"; "z"])
  = Raise (length_mismatch 3 4).
Proof. reflexivity. Qed.

Lemma createDataFrame_scalar_default_name_witness :
  [PInt 1; PInt 2; PInt 3] ≠ [] ∧
  createDataFrame (Iterable true (ScalarBatch [PInt 1; PInt 2; PInt 3]))
    SchemaNone
  = Ok (toDF
          (withPlan
             (mkLocalRelation
                (Some (mkTable ["_1"]
                         [mkColumn None
                            [Some (PInt 1); Some (PInt 2); Some (PInt 3)]]))
                None))
          ["_1"]).
Proof.
  assert ([PInt 1; PInt 2; PInt 3] ≠ []) as Hne by discriminate.
  split; [exact Hne|].
  exact (proj1 (proj1 (createDataFrame_scalar_default_name true
                         [PInt 1; PInt 2; PInt 3] Hne) eq_refl)).
Defined.

(** Scalars of two kinds: pyarrow raises on the column, and so does the
    call. *)
Lemma createDataFrame_mixed_scalars :
  createDataFrame (Iterable true (ScalarBatch int_and_string)) SchemaNone
  = Raise (LibraryError "ArrowInvalid").
Proof. reflexivity. Qed.

(** C6 as stated fails: the single column of scalar rows is named ["_1"],
    not ["value"]. *)
Lemma createDataFrame_scalar_not_value :
  result_column_names
    (createDataFrame (Iterable true (ScalarBatch [PInt 1; PInt 2; PInt 3]))
       SchemaNone) = Some ["_1"]
  ∧ ["_1"] ≠ ["value"].
Proof. split; [reflexivity|discriminate]. Qed.

Lemma createDataFrame_struct_field_count_witness :
  sized_and_empty two_wide = Ok false ∧
  length (fields a_b_c_schema) ≠ 2%nat ∧
  createDataFrame two_wide (SchemaStruct a_b_c_schema)
  = Raise (ValueError
      "Length mismatch: Expected axis has 2 elements, new values have 3 elements").
Proof.
  assert (length (fields a_b_c_schema) ≠ 2%nat) as Hne by discriminate.
  split; [reflexivity|]. split; [exact Hne|].
  exact (createDataFrame_struct_field_count two_wide a_b_c_schema
           (mkTable ["a"; "b"]
              [mkColumn None [Some (PInt 1)]; mkColumn None [Some (PInt 2)]])
           (Some ["a"; "b"; "c"]) None eq_refl eq_refl Hne).
Defined.

Lemma createDataFrame_array_rank_witness :
  shape array_1x2x2 = [1%nat; 2%nat; 2%nat] ∧
  createDataFrame (Ndarray array_1x2x2) (SchemaStr "a int")
  = Raise invalid_rank.
Proof.
  split; [reflexivity|].
  assert (1%nat ≠ 0%nat) as Hne by discriminate.
  apply (proj1 (createDataFrame_array_rank array_1x2x2 (SchemaStr "a int")
                  1 [2%nat; 2%nat] eq_refl Hne)); discriminate.
Defined.

(** C8 as stated fails: an array of rank 3 with an empty first axis takes
    the empty-input path, and with a schema string the call returns. *)
Lemma createDataFrame_empty_rank3 :
  ndim array_0x2x2 = 3%nat ∧
  createDataFrame (Ndarray array_0x2x2) (SchemaStr "a int")
  = Ok (withPlan (mkLocalRelation None (Some (schema_str "a int")))).
Proof. split; reflexivity. Qed.

(** C9 fails on the code.  A frame with a column of nanosecond
    timestamps that are not whole microseconds: the cast of pandas to
    ["datetime64[us]"] leaves the nanoseconds in place, the schema asks
    for microseconds, and the checked conversion of pyarrow raises; no
    value is truncated and no table is built. *)
Theorem createDataFrame_timestamps_not_truncated :
  createDataFrame (Pandas timestamp_frame) SchemaNone
  = Raise (LibraryError "ArrowInvalid").
Proof. reflexivity. Qed.

Lemma a_b_schema_lock_step : lock_step a_b_schema.
Proof.
  split; [reflexivity|].
  intros [|[|i]] f; simpl; intros [= <-]; reflexivity.
Defined.

Lemma apply_cols_lock_step_witness :
  lock_step a_b_schema ∧
  ∃ s',
    apply_cols a_b_schema ["x"; "y"] = Ok s' ∧
    lock_step s' ∧
    names s' !! 1%nat = Some "y".
Proof.
  split; [exact a_b_schema_lock_step|].
  assert (length ["x"; "y"] ≤ length (fields a_b_schema)) as Hle
    by (simpl; lia).
  destruct (apply_cols_lock_step a_b_schema ["x"; "y"]
              a_b_schema_lock_step Hle)
    as (s' & Hs & Hl & _ & Hn & _).
  exists s'. split; [exact Hs|]. split; [exact Hl|].
  exact (proj1 (Hn 1%nat "y" eq_refl)).
Defined.

(** * Further properties *)

(** ** The session builder *)

Section builder_facts.
Context {V : Type} (str_value : string → V) (to_str : V → option string).
Implicit Types (self : gmap (option string) (option string)) (m : dict V).

Lemma config_map_other m : ∀ self k',
  (∀ k, k' = Some k → k ∉ keys m) →
  fold_left (fun o kv => <[Some kv.1 := to_str kv.2]> o) m self !! k'
  = self !! k'.
Proof.
  induction m as [|[k v] m IH]; intros self k' Hk; simpl; [done|].
  rewrite IH.
  - apply lookup_insert_ne. intros <-. apply (Hk k eq_refl). by left.
  - intros k0 -> Hin. apply (Hk k0 eq_refl). by right.
Qed.

(** X1.  [config(map=m)] stores [to_str] of every value of [m] under its
    key and leaves every other key as it was; [key] and [value] are not
    looked at when [map] is given. *)
Theorem config_map_lookup key value m self :
  NoDup (keys m) →
  (∀ k v, (k, v) ∈ m →
     config to_str key value (Some m) self !! Some k = Some (to_str v))
  ∧ (∀ k', (∀ k, k' = Some k → k ∉ keys m) →
       config to_str key value (Some m) self !! k' = self !! k').
Proof.
  intros Hnd. split; [|intros k' Hk; by apply config_map_other].
  unfold config. revert self Hnd.
  induction m as [|[k0 v0] m IH]; intros self Hnd k v Hin.
  { by apply elem_of_nil in Hin. }
  simpl in *. apply NoDup_cons in Hnd as [Hk0 Hnd].
  apply elem_of_cons in Hin as [[= -> ->]|Hin].
  - rewrite config_map_other; [apply lookup_insert_eq|].
    by intros k [= <-].
  - by apply IH.
Qed.

(** X2.  [getOrCreate] hands over what [remote] stored, the default
    location when none is given; [appName] and [master] neither provide
    nor change it, and without [remote] the call raises [KeyError]. *)
Theorem getOrCreate_needs_remote self loc name (url : string) :
  getOrCreate (remote str_value to_str loc self)
    = Returns (to_str (str_value (default "sc://localhost" loc)))
  ∧ getOrCreate (appName str_value to_str name self) = getOrCreate self
  ∧ getOrCreate (master url self) = getOrCreate self
  ∧ getOrCreate (appName str_value to_str name (master url Builder_init))
    = Throws (KeyError "spark.remote").
Proof.
  unfold getOrCreate, remote, appName, master, config, Builder_init.
  rewrite lookup_insert_eq, !lookup_insert_ne, lookup_empty by done.
  done.
Qed.
End builder_facts.

Section more_session_facts.
Context {value : Type} `{!Collaborators value} `{!Arrow value}.
Implicit Types (data : data_arg value) (schema : schema_arg).

Lemma createDataFrame_Ok_inv data schema df t :
  createDataFrame data schema = Ok df →
  plan_table df = Some t →
  ∃ c inf,
    sized_and_empty data = Ok false ∧
    build_table data (arg_schema schema) (arg_cols schema) = Ok (t, c, inf) ∧
    validate_and_wrap (arg_schema schema) (arg_schema_str schema) (t, c, inf)
      = Ok df.
Proof.
  intros Hdf Ht. destruct (sized_and_empty data) as [[]|e] eqn:He.
  - unfold createDataFrame in Hdf. rewrite He in Hdf.
    destruct data; try done; simpl in Hdf;
      destruct (arg_schema schema), (arg_schema_str schema);
      simplify_eq; done.
  - rewrite createDataFrame_nonempty in Hdf by done.
    destruct (build_table _ _ _) as [[[t' c] inf]|]; [|done].
    rewrite bind_Ok in Hdf.
    pose proof (validate_and_wrap_table _ _ _ _ Hdf) as Ht'. simpl in Ht'.
    exists c, inf. by simplify_eq.
  - unfold createDataFrame in Hdf. rewrite He in Hdf. by destruct data.
Qed.

Lemma validate_and_wrap_counts e str (t : Table value) c inf df :
  validate_and_wrap e str (t, c, inf) = Ok df →
  (∀ s, e = Some (ExplicitStruct s) → length (fields s) = num_cols t)
  ∧ (∀ cs, c = Some cs → length cs = num_cols t).
Proof.
  unfold validate_and_wrap. intros Hv. split.
  - intros s ->. destruct (length (fields s) =? num_cols t) eqn:E.
    + by apply Nat.eqb_eq.
    + done.
  - intros cs ->. destruct (length cs =? num_cols t) eqn:E.
    + by apply Nat.eqb_eq.
    + destruct e as [[?|s]|]; simpl in Hv; [done| |done].
      by destruct (length (fields s) =? num_cols t).
Qed.

Lemma build_table_cols data e cs (t : Table value) c inf :
  build_table data e (Some cs) = Ok (t, c, inf) → c = Some cs.
Proof.
  destruct data as [|f|a|sized b]; simpl; try done.
  - destruct (pandas_branch f) as [[r t']|]; [|done]. by intros [= _ <- _].
  - unfold ndarray_branch.
    repeat match goal with
           | |- context [if ?b then _ else _] => destruct b; try done
           end.
    all: destruct (from_arrays _ _) as [t'|]; [|done].
    all: by intros [= _ <- _].
  - unfold iterable_branch. case_match; [done|].
    destruct (infer_step _ _ _) as [[d i]|]; simpl; [|done].
    destruct (pylist_table _ _) as [t'|]; [|done].
    by intros [= _ <- _].
Qed.

(** X3.  Whenever [createDataFrame] returns a plan with a table, an
    explicit structured type has as many fields, and an explicit list of
    names as many names, as the table has columns. *)
Theorem createDataFrame_returns_matching_counts data schema df t :
  createDataFrame data schema = Ok df →
  plan_table df = Some t →
  (∀ s, schema = SchemaStruct s → length (fields s) = num_cols t)
  ∧ (∀ cs, schema = SchemaCols cs → length cs = num_cols t).
Proof.
  intros Hdf Ht.
  destruct (createDataFrame_Ok_inv _ _ _ _ Hdf Ht) as (c & inf & _ & Hb & Hv).
  destruct (validate_and_wrap_counts _ _ _ _ _ _ Hv) as [H1 H2].
  split.
  - intros s ->. by apply H1.
  - intros cs ->. simpl in Hb. apply H2. by eapply build_table_cols.
Qed.
End more_session_facts.

Section more_session_facts2.
Context {value : Type} `{!Collaborators value} `{!Arrow value}.
Implicit Types (data : data_arg value) (schema : schema_arg).

Lemma validate_and_wrap_schema e str
    (built : Table value * option (list string) * option StructType) df :
  validate_and_wrap e str built = Ok df →
  plan_schema_of df =
    match e, str with
    | Some e, _ => Some (explicit_json e)
    | None, Some s => Some (schema_str s)
    | None, None => (fun s => schema_json (Struct s)) <$> built.2
    end.
Proof.
  destruct built as [[t c] inf]. unfold validate_and_wrap.
  destruct e as [[?|s]|]; simpl;
    repeat (case_match; simpl; try done);
    intros [= <-]; done.
Qed.

Lemma createDataFrame_schema_of data schema df :
  createDataFrame data schema = Ok df →
  (∀ e, arg_schema schema = Some e →
     plan_schema_of df = Some (explicit_json e))
  ∧ (∀ str, schema = SchemaStr str →
       plan_schema_of df = Some (schema_str str)).
Proof.
  intros Hdf. destruct (sized_and_empty data) as [[]|e] eqn:He.
  - unfold createDataFrame in Hdf. rewrite He in Hdf.
    destruct data; [done|..]; simpl in Hdf.
    all: split; [intros e Hs; rewrite Hs in Hdf|intros str ->; simpl in Hdf].
    all: by injection Hdf as <-.
  - rewrite createDataFrame_nonempty in Hdf by done.
    destruct (build_table _ _ _) as [built|]; [|done].
    rewrite bind_Ok in Hdf. apply validate_and_wrap_schema in Hdf.
    split; [intros e Hs; by rewrite Hs in Hdf|by intros str ->].
  - unfold createDataFrame in Hdf. rewrite He in Hdf. by destruct data.
Qed.

(** X4.  A returned plan carries the explicit schema it was given: the
    atomic type, the structured type or the schema string, also when a
    schema was inferred on the way. *)
Theorem createDataFrame_keeps_explicit_schema data schema df :
  createDataFrame data schema = Ok df →
  (∀ t, schema = SchemaAtomic t →
     plan_schema_of df = Some (schema_json (Atomic t)))
  ∧ (∀ s, schema = SchemaStruct s →
       plan_schema_of df = Some (schema_json (Struct s)))
  ∧ (∀ str, schema = SchemaStr str →
       plan_schema_of df = Some (schema_str str)).
Proof.
  intros Hdf. destruct (createDataFrame_schema_of _ _ _ Hdf) as [He Hstr].
  split; [|split]; [intros t ->|intros s ->|done].
  - by apply (He (ExplicitAtomic t)).
  - by apply (He (ExplicitStruct s)).
Qed.

(** X5.  Without an explicit atomic or structured type, rows that are
    records or dictionaries are always inferred, also under a schema
    string or a list of names: an exception of the inference is the
    exception of the call. *)
Theorem createDataFrame_inference_failure sized (b : batch value) schema e :
  arg_schema schema = None →
  is_record_batch b = true →
  batch_rows b ≠ [] →
  _inferSchemaFromList (inference_input b) (arg_cols schema) = Raise e →
  createDataFrame (Iterable sized b) schema = Raise e.
Proof.
  intros Hs Hb Hne Hinf.
  assert (sized_and_empty (Iterable sized b) = Ok false) as He.
  { unfold sized_and_empty. destruct sized; simpl; [|done].
    by destruct (batch_rows b). }
  rewrite createDataFrame_nonempty by done. simpl.
  unfold iterable_branch, batch_is_empty. rewrite Hs.
  destruct (batch_rows b) eqn:Hr; [done|].
  destruct b as [rows|rows| |]; try done; unfold infer_step; simpl.
  all: simpl in Hinf; by rewrite Hinf.
Qed.
End more_session_facts2.

Section inference_facts.
Context {value : Type} `{!Collaborators value} `{!Arrow value}.
Implicit Types (data : data_arg value) (schema : schema_arg).

Lemma fold_infer_Raise names (l : list (row value)) e :
  fold_left
    (fun acc r => a ← acc; s ← _infer_schema r names; _merge_type a s)
    l (Raise e) = Raise e.
Proof. induction l as [|r l IH]; [done|]. simpl. apply IH. Qed.

(** X6.  Once inferring and merging a prefix of the rows has raised, the
    inference raises the same exception whatever rows follow. *)
Theorem inferSchemaFromList_first_failure row0 rest more names e :
  reduce_merge row0 rest names = Raise e →
  _inferSchemaFromList (row0 :: rest ++ more) names = Raise e.
Proof.
  intros Hr. unfold _inferSchemaFromList, reduce_merge in *.
  by rewrite fold_left_app, Hr, fold_infer_Raise.
Qed.

Lemma inferSchemaFromList_Ok rows names s :
  _inferSchemaFromList rows names = Ok s →
  rows ≠ [] ∧ _has_nulltype s = false.
Proof.
  unfold _inferSchemaFromList. destruct rows as [|r rest]; [done|].
  destruct (reduce_merge r rest names) as [m|]; [|done].
  rewrite bind_Ok. destruct (_has_nulltype m) eqn:Hn; [done|].
  by intros [= <-].
Qed.

(** X7.  With no schema argument, a schema carried by a returned plan is
    an inferred structured type without an unresolved null. *)
Theorem createDataFrame_inferred_schema_has_no_null sized (b : batch value)
    df t :
  createDataFrame (Iterable sized b) SchemaNone = Ok df →
  plan_schema_of df = Some (schema_json t) →
  ∃ s, t = Struct s ∧ _has_nulltype s = false.
Proof.
  intros Hdf Hp.
  destruct (sized_and_empty (Iterable sized b)) as [[]|e] eqn:He.
  - unfold createDataFrame in Hdf. by rewrite He in Hdf.
  - rewrite createDataFrame_nonempty in Hdf by done.
    destruct (build_table _ _ _) as [built|] eqn:Hb; [|done].
    rewrite bind_Ok in Hdf. apply validate_and_wrap_schema in Hdf.
    simpl in Hdf. rewrite Hp in Hdf.
    simpl in Hb. unfold iterable_branch in Hb.
    destruct (batch_is_empty b); [done|].
    unfold infer_step in Hb.
    destruct b as [rows|rows|rows|rows]; simpl in Hb.
    3, 4: destruct (from_pylist _) as [t'|]; [|done].
    3, 4: injection Hb as <-; done.
    all: destruct (_inferSchemaFromList _ _) as [s|] eqn:Hi; [|done].
    all: simpl in Hb; destruct (from_pylist _) as [t'|]; [|done].
    all: injection Hb as <-; simpl in Hdf.
    all: injection Hdf as ->.
    all: exists s; split; [done|].
    all: by destruct (inferSchemaFromList_Ok _ _ _ Hi).
  - unfold createDataFrame in Hdf. by rewrite He in Hdf.
Qed.
End inference_facts.

Section array_facts.
Context {value : Type} `{!Collaborators value} `{!Arrow value}.
Implicit Types (data : data_arg value) (schema : schema_arg).

(** X8.  An array of rank 1 with at least one element gives one column
    holding the elements, named ["value"] or by the single name given.
    The call returns it when pyarrow converts the column, unless a
    structured type is given whose number of fields is not 1, which
    raises the length-mismatch error; when pyarrow raises on the column
    the call raises that exception.  With a list of names of any length
    other than 1 the call raises the length-mismatch error in its
    singular wording, before pyarrow is called. *)
Theorem createDataFrame_rank1 (a : ndarray value) schema n :
  shape a = [n] →
  n ≠ 0 →
  (arg_cols schema = None →
   (pa_array_raises (map Some (flat a)) = None →
    (∀ s, schema = SchemaStruct s → length (fields s) = 1) →
    ∃ df,
      createDataFrame (Ndarray a) schema = Ok df ∧
      plan_table df
        = Some (mkTable ["value"] [mkColumn None (map Some (flat a))]))
   ∧ (pa_array_raises (map Some (flat a)) = None →
      ∀ s, schema = SchemaStruct s → length (fields s) ≠ 1 →
      createDataFrame (Ndarray a) schema
        = Raise (length_mismatch 1 (length (fields s))))
   ∧ (∀ cls, pa_array_raises (map Some (flat a)) = Some cls →
      createDataFrame (Ndarray a) schema = Raise (LibraryError cls)))
  ∧ (∀ c, schema = SchemaCols [c] →
       createDataFrame (Ndarray a) schema
         = match pa_array_raises (map Some (flat a)) with
           | Some cls => Raise (LibraryError cls)
           | None =>
               Ok (toDF
                     (withPlan
                        (mkLocalRelation
                           (Some (mkTable [c]
                                    [mkColumn None (map Some (flat a))]))
                           None))
                     [c])
           end)
  ∧ (∀ cols, schema = SchemaCols cols → length cols ≠ 1 →
       createDataFrame (Ndarray a) schema
         = Raise (ValueError
                    ("Length mismatch: Expected axis has 1 element, "
                     +:+ "new values have " +:+ py_str (length cols)
                     +:+ " elements"))).
Proof.
  intros Hs Hn.
  assert (sized_and_empty (Ndarray a) = Ok false) as He.
  { unfold sized_and_empty. simpl. rewrite Hs. simpl.
    by apply Nat.eqb_neq in Hn as ->. }
  assert (ndim a = 1) as Hd by (unfold ndim; by rewrite Hs).
  rewrite createDataFrame_nonempty by done. simpl.
  unfold ndarray_branch. rewrite Hd. simpl.
  split; [|split].
  - intros Hc. rewrite Hc. simpl. split; [|split].
    + intros Hacc Hst. unfold from_arrays. simpl. rewrite Hacc. simpl.
      unfold validate_and_wrap, num_cols. simpl.
      destruct schema as [t|s|str|c|]; simpl; try done; eauto.
      rewrite (Hst s eq_refl). simpl. eauto.
    + intros Hacc s -> Hne. unfold from_arrays. simpl. rewrite Hacc. simpl.
      unfold validate_and_wrap, num_cols. simpl.
      by apply Nat.eqb_neq in Hne as ->.
    + intros cls Hrej. unfold from_arrays. simpl. by rewrite Hrej.
  - intros c ->. unfold from_arrays. simpl.
    by destruct (pa_array_raises _).
  - intros cols -> Hne. cbn [arg_cols].
    by destruct (length cols) as [|[|k]].
Qed.
End array_facts.

Section explicit_type.
Context {value : Type} `{!Arrow value}.

(** X9.  With an explicit atomic or structured type the rows of an
    iterable are never inferred: the result is the same under any two
    implementations of the collaborators that agree on [Row.asDict]. *)
Theorem createDataFrame_explicit_type_skips_inference
    (C C' : Collaborators value) sized (b : batch value) schema :
  (∀ r, @Row_asDict value C r = @Row_asDict value C' r) →
  is_Some (arg_schema schema) →
  @createDataFrame value C _ (Iterable sized b) schema
  = @createDataFrame value C' _ (Iterable sized b) schema.
Proof.
  intros Hrow [e He].
  unfold createDataFrame. rewrite He.
  destruct (sized_and_empty (Iterable sized b)) as [[]|]; simpl; try done.
  unfold iterable_branch. destruct (batch_is_empty b); [done|].
  assert (∀ c, @pylist_table value C _ c b = @pylist_table value C' _ c b)
    as Ht.
  { intros c. destruct b as [rows| | |]; simpl; try done.
    f_equal. by apply map_ext. }
  unfold infer_step. rewrite !bind_Ok. cbv zeta. by rewrite Ht.
Qed.
End explicit_type.

Section zip_facts.
Context {V : Type}.
Implicit Types (names : list string) (row : list V).

Lemma positional_names_NoDup n : NoDup (positional_names n).
Proof.
  unfold positional_names. rewrite map_fmap.
  apply NoDup_fmap_2; [|apply NoDup_seq].
  intros i j Hij. simpl in Hij. injection Hij as Hij.
  change (pretty i = pretty j) in Hij. by apply (inj pretty) in Hij.
Qed.

Lemma keys_zip_subseteq names row k : k ∈ keys (zip names row) → k ∈ names.
Proof.
  unfold keys. rewrite map_fmap. intros ([k' v] & -> & Hin)%list_elem_of_fmap.
  by eapply elem_of_zip_l.
Qed.

Lemma keys_zip_NoDup names row : NoDup names → NoDup (keys (zip names row)).
Proof.
  intros Hnd. revert row.
  induction Hnd as [|n names Hn Hnd IH]; intros [|x row]; simpl;
    try constructor.
  - intros Hin. by apply Hn, (keys_zip_subseteq names row).
  - apply IH.
Qed.

Lemma dict_zip_NoDup names row :
  NoDup names → dict_zip names row = zip names row.
Proof. intros. unfold dict_zip. by apply py_dict_NoDup, keys_zip_NoDup. Qed.

Lemma dict_get_zip names : ∀ row i n,
  NoDup names → names !! i = Some n →
  dict_get (zip names row) n = row !! i.
Proof.
  induction names as [|m names IH]; intros row i n Hnd Hi; [done|].
  apply NoDup_cons in Hnd as [Hm Hnd].
  destruct row as [|x row]; simpl.
  { by destruct i. }
  destruct (String.eqb_spec n m) as [->|Hne].
  - destruct i as [|i]; [done|]. simpl in Hi.
    destruct Hm. by eapply list_elem_of_lookup_2.
  - destruct i as [|i]; simpl in Hi; [congruence|].
    change ((x :: row) !! S i) with (row !! i). by apply IH.
Qed.

Lemma map_names_seq {B} names (F : string → B) (G : nat → B) :
  (∀ i n, names !! i = Some n → F n = G i) →
  map F names = map G (seq 0 (length names)).
Proof.
  intros H. apply list_eq. intros i.
  rewrite !map_fmap, !list_lookup_fmap.
  destruct (names !! i) as [n|] eqn:Hi; simpl.
  - rewrite (proj2 (lookup_seq 0 (length names) i i)).
    + simpl. f_equal. by apply H.
    + split; [done|]. by eapply lookup_lt_Some.
  - rewrite lookup_ge_None_2; [done|].
    rewrite length_seq. by apply lookup_ge_None.
Qed.
End zip_facts.

Section sequence_rows_default.
Context {value : Type} `{!Collaborators value} `{!Arrow value}.

Lemma pylist_arrays_zip (names : list string) (r : list value) rows :
  NoDup names →
  length names = length r →
  pylist_names (map (fun item => dict_zip names item) (r :: rows)) = names
  ∧ pylist_arrays (map (fun item => dict_zip names item) (r :: rows))
    = map (fun i => map (fun row => row !! i) (r :: rows))
        (seq 0 (length r)).
Proof.
  intros Hnd Hlen.
  assert (keys (dict_zip names r) = names) as Hk.
  { rewrite dict_zip_NoDup by done. unfold keys. rewrite map_fmap.
    apply fst_zip. lia. }
  unfold pylist_arrays, pylist_names. cbn [map]. rewrite Hk.
  split; [done|].
  rewrite <- Hlen. apply map_names_seq. intros i n Hi.
  change (dict_get (dict_zip names r) n
          :: map (fun r0 => dict_get r0 n)
               (map (fun item => dict_zip names item) rows))
    with (map (fun r0 => dict_get r0 n)
            (map (fun item => dict_zip names item) (r :: rows))).
  rewrite map_map.
  change (r !! i :: map (fun row : list value => row !! i) rows)
    with (map (fun row : list value => row !! i) (r :: rows)).
  apply map_ext. intros row.
  rewrite dict_zip_NoDup by done. by apply dict_get_zip.
Qed.

(** X10.  Lists or tuples with no schema argument give the columns
    ["_1"] to ["_N"], [N] the width of the first row; the cell of row [j]
    in column [i] is [rows[j][i]], null where the row is shorter, and
    values past the width of the first row are left out.  The call
    returns that table when pyarrow converts every column, and raises
    pyarrow's exception when it does not.  Rows of width 0 give a table
    without columns and no [toDF]. *)
Theorem createDataFrame_sequence_defaults sized (r : list value) rows :
  (arrow_accepts
     (map (fun i => map (fun row => row !! i) (r :: rows)) (seq 0 (length r))) →
   createDataFrame (Iterable sized (SeqBatch (r :: rows))) SchemaNone
   = Ok (let plan :=
           withPlan
             (mkLocalRelation
                (Some (mkTable (positional_names (length r))
                         (map (fun i =>
                                 mkColumn None
                                   (map (fun row => row !! i) (r :: rows)))
                            (seq 0 (length r)))))
                None) in
         match positional_names (length r) with
         | [] => plan
         | _ => toDF plan (positional_names (length r))
         end))
  ∧ (∀ cls,
       arrow_rejects
         (map (fun i => map (fun row => row !! i) (r :: rows))
            (seq 0 (length r))) cls →
       createDataFrame (Iterable sized (SeqBatch (r :: rows))) SchemaNone
       = Raise (LibraryError cls)).
Proof.
  assert (sized_and_empty (Iterable sized (SeqBatch (r :: rows))) = Ok false)
    as He by (by destruct sized).
  rewrite createDataFrame_nonempty, seq_build_table by done.
  cbn [arg_cols arg_schema default_cols]. cbv zeta.
  set (names := positional_names (length r)).
  assert (NoDup names) as Hnd by apply positional_names_NoDup.
  assert (length names = length r) as Hlen
    by apply length_positional_names.
  destruct (pylist_arrays_zip names r rows Hnd Hlen) as [Hn Ha].
  split.
  - intros Hacc. rewrite from_pylist_accepts by (by rewrite Ha).
    rewrite Hn, Ha, !bind_Ok. unfold validate_and_wrap, num_cols.
    cbn [columns arg_schema_str].
    rewrite !length_map, length_seq, Hlen, Nat.eqb_refl, map_map. simpl.
    by destruct names.
  - intros cls Hrej. by rewrite (from_pylist_rejects _ cls) by (by rewrite Ha).
Qed.
End sequence_rows_default.

Section dict_get_facts.
Context {V : Type}.
Implicit Types (d : dict V).

Lemma dict_get_None d k : k ∉ keys d → dict_get d k = None.
Proof.
  induction d as [|[k' v] d IH]; simpl; [done|].
  intros [Hne Hk]%not_elem_of_cons.
  destruct (String.eqb_spec k k'); [done|]. by apply IH.
Qed.

Lemma dict_get_perm d1 d2 k :
  NoDup (keys d1) → d1 ≡ₚ d2 → dict_get d1 k = dict_get d2 k.
Proof.
  intros Hnd Hp.
  induction Hp as [|[k' v] l l' Hp IH|[k1 v1] [k2 v2] l|l l' l'' Hp1 IH1 Hp2 IH2];
    simpl in *.
  - done.
  - apply NoDup_cons in Hnd as [_ Hnd]. by rewrite IH.
  - apply NoDup_cons in Hnd as [Hne _].
    destruct (String.eqb_spec k k1) as [E1|], (String.eqb_spec k k2) as [E2|];
      try done.
    destruct Hne. subst. by left.
  - rewrite IH1 by done. apply IH2.
    assert (keys l ≡ₚ keys l') as Hk by (by apply fmap_Permutation).
    by rewrite <- Hk.
Qed.

Lemma dict_get_sorted d k :
  NoDup (keys d) → dict_get (py_dict (sorted_items d)) k = dict_get d k.
Proof.
  intros Hnd. rewrite py_dict_NoDup by by apply sorted_items_NoDup.
  symmetry. apply dict_get_perm; [done|].
  symmetry. apply sorted_items_Permutation.
Qed.
End dict_get_facts.

Section dict_rows.
Context {value : Type} `{!Collaborators value} `{!Arrow value}.
Implicit Types (schema : schema_arg).

Lemma dict_build_table sized (d : dict value) rows schema t c inf :
  arg_schema schema = None →
  build_table (Iterable sized (DictBatch (d :: rows))) (arg_schema schema)
    (arg_cols schema) = Ok (t, c, inf) →
  from_pylist (sorted_dicts (d :: rows)) = Ok t.
Proof.
  intros Hs Hb. simpl in Hb. unfold iterable_branch in Hb. simpl in Hb.
  rewrite Hs in Hb. unfold infer_step in Hb.
  destruct (_inferSchemaFromList _ _) as [s|]; [|done].
  rewrite bind_Ok in Hb.
  destruct (match arg_cols schema with Some c0 => apply_cols s c0 | None => Ok s end)
    as [s'|]; [|done].
  simpl in Hb.
  destruct (from_pylist _) as [t'|] eqn:Hp; [|done].
  simpl in Hb. by injection Hb as <- _ _.
Qed.

Lemma pylist_sorted_dicts (d : dict value) rows :
  Forall (fun d' => NoDup (keys d')) (d :: rows) →
  pylist_names (sorted_dicts (d :: rows)) = keys (sorted_items d)
  ∧ pylist_arrays (sorted_dicts (d :: rows))
    = map (fun k => map (fun d' => dict_get d' k) (d :: rows))
        (keys (sorted_items d)).
Proof.
  intros Hnd. pose proof Hnd as [Hd Hrows]%Forall_cons.
  unfold pylist_arrays, pylist_names, sorted_dicts. cbn [map].
  rewrite py_dict_NoDup by by apply sorted_items_NoDup.
  split; [done|]. apply map_ext. intros k.
  change (dict_get (sorted_items d) k
          :: map (fun r => dict_get r k)
               (map (fun d0 => py_dict (sorted_items d0)) rows))
    with (map (fun r => dict_get r k)
            (sorted_items d :: map (fun d0 => py_dict (sorted_items d0)) rows)).
  cbn [map]. f_equal.
  - rewrite <- (dict_get_sorted d k Hd).
    by rewrite py_dict_NoDup by by apply sorted_items_NoDup.
  - rewrite map_map. apply map_ext_in. intros d' Hd'%list_elem_of_In.
    apply dict_get_sorted. rewrite Forall_forall in Hrows. by apply Hrows.
Qed.

(** X11.  Without an explicit atomic or structured type, the table of
    dictionary rows has the keys of the first row in sorted order as its
    columns, and the cell of a row under a key is the row's value for that
    key, null when the row lacks it: sorting changes no value. *)
Theorem createDataFrame_dict_cells sized (d : dict value) rows schema df t :
  arg_schema schema = None →
  Forall (fun d' => NoDup (keys d')) (d :: rows) →
  createDataFrame (Iterable sized (DictBatch (d :: rows))) schema = Ok df →
  plan_table df = Some t →
  column_names t = keys (sorted_items d) ∧
  columns t =
    map (fun k => mkColumn None (map (fun d' => dict_get d' k) (d :: rows)))
      (keys (sorted_items d)).
Proof.
  intros Hs Hnd Hdf Ht.
  destruct (createDataFrame_Ok_table _ _ _ _ Hdf Ht) as (c & inf & Hb).
  apply dict_build_table in Hb; [|done].
  apply from_pylist_Ok in Hb as ->. cbn [column_names columns].
  destruct (pylist_sorted_dicts d rows Hnd) as [-> ->].
  split; [done|]. by rewrite map_map.
Qed.

(** X12.  For dictionary rows with no schema argument, once pyarrow has
    converted the columns, the call returns exactly when the inferred
    schema has as many names as the first row has keys, and otherwise
    raises the length-mismatch error with the key count of the first
    row and the name count of the schema; when pyarrow raises on a
    column, the call raises that exception, whatever the counts. *)
Theorem createDataFrame_dict_name_count sized (d : dict value) rows s :
  NoDup (keys d) →
  _inferSchemaFromList (inference_input (DictBatch (d :: rows))) None = Ok s →
  (arrow_accepts (pylist_arrays (sorted_dicts (d :: rows))) →
   createDataFrame (Iterable sized (DictBatch (d :: rows))) SchemaNone
   = if length (names s) =? length d then
       Ok (withPlan
             (mkLocalRelation
                (Some (mkTable (pylist_names (sorted_dicts (d :: rows)))
                         (map (mkColumn None)
                            (pylist_arrays (sorted_dicts (d :: rows))))))
                (Some (schema_json (Struct s)))))
     else Raise (length_mismatch (length d) (length (names s))))
  ∧ (∀ cls,
       arrow_rejects (pylist_arrays (sorted_dicts (d :: rows))) cls →
       createDataFrame (Iterable sized (DictBatch (d :: rows))) SchemaNone
       = Raise (LibraryError cls)).
Proof.
  intros Hnd Hinf.
  assert (sized_and_empty (Iterable sized (DictBatch (d :: rows))) = Ok false)
    as He by (by destruct sized).
  rewrite createDataFrame_nonempty by done.
  assert (build_table (Iterable sized (DictBatch (d :: rows)))
            (arg_schema SchemaNone) (arg_cols SchemaNone)
          = (t ← from_pylist (sorted_dicts (d :: rows));
             Ok (t, Some (names s), Some s))) as ->.
  { simpl. unfold iterable_branch, infer_step. simpl.
    simpl in Hinf. by rewrite Hinf. }
  split.
  - intros Hacc. rewrite from_pylist_accepts, !bind_Ok by done.
    assert (length (map (mkColumn None)
                      (pylist_arrays (sorted_dicts (d :: rows))))
            = length d) as Hl.
    { unfold pylist_arrays. rewrite !length_map.
      unfold pylist_names, sorted_dicts. cbn [map].
      rewrite py_dict_NoDup by by apply sorted_items_NoDup.
      unfold keys. rewrite length_map.
      apply (Permutation_length (sorted_items_Permutation d)). }
    unfold validate_and_wrap, num_cols.
    cbn [columns arg_schema arg_schema_str]. rewrite Hl. rewrite !bind_Ok.
    by destruct (length (names s) =? length d).
  - intros cls Hrej. by rewrite (from_pylist_rejects _ cls).
Qed.

(** X13.  For records or dictionaries under a list of names longer than
    the inferred schema, whose [fields] and [names] are in lock-step, the
    renaming loop raises [IndexError]; the length-mismatch test is not
    reached. *)
Theorem createDataFrame_too_many_names sized (b : batch value) cols s :
  is_record_batch b = true →
  batch_rows b ≠ [] →
  _inferSchemaFromList (inference_input b) (Some cols) = Ok s →
  lock_step s →
  length (fields s) < length cols →
  createDataFrame (Iterable sized b) (SchemaCols cols)
  = Raise (IndexError "list index out of range").
Proof.
  intros Hb Hne Hinf Hl Hlt.
  assert (sized_and_empty (Iterable sized b) = Ok false) as He.
  { unfold sized_and_empty. destruct sized; simpl; [|done].
    by destruct (batch_rows b). }
  rewrite createDataFrame_nonempty by done. simpl.
  unfold iterable_branch, batch_is_empty.
  destruct (batch_rows b) eqn:Hr; [done|].
  destruct b as [rows|rows| |]; try done; unfold infer_step; simpl.
  all: simpl in Hinf; rewrite Hinf, bind_Ok.
  all: by rewrite apply_cols_too_many.
Qed.
End dict_rows.

Section table_shape.
Context {value : Type} `{!Collaborators value} `{!Arrow value}.
Implicit Types (data : data_arg value) (schema : schema_arg).

Lemma from_pylist_shape (rows : list (dict value)) t :
  from_pylist rows = Ok t →
  length (column_names t) = num_cols t ∧
  Forall (fun c => length (col_values c) = length rows) (columns t).
Proof.
  intros ->%from_pylist_Ok. unfold pylist_arrays, num_cols. simpl. split.
  - by rewrite !length_map.
  - rewrite map_map. apply Forall_forall.
    intros c (n & <- & _)%list_elem_of_In%in_map_iff. simpl.
    apply length_map.
Qed.

Lemma infer_step_rows e c (b d : batch value) i :
  infer_step e c b = Ok (d, i) →
  length (batch_rows d) = length (batch_rows b).
Proof.
  unfold infer_step. destruct e, b; simpl; try (by intros [= <- _]).
  all: destruct (_inferSchemaFromList _ _) as [s|]; [|done]; simpl.
  all: destruct c as [c|]; simpl;
    try destruct (apply_cols s c); simpl; try done.
  all: intros [= <- _]; simpl; by rewrite ?length_map.
Qed.

Lemma pylist_table_shape c (d : batch value) t :
  pylist_table c d = Ok t →
  length (column_names t) = num_cols t ∧
  Forall (fun col => length (col_values col) = length (batch_rows d))
    (columns t).
Proof.
  destruct d as [rows|rows|rows|rows]; simpl; intros Ht.
  all: apply from_pylist_shape in Ht as [H1 H2]; split; [done|].
  all: eapply Forall_impl; [exact H2|].
  all: intros col; simpl; by rewrite ?length_map.
Qed.

Lemma ndarray_branch_shape (a : ndarray value) c t c' :
  ndarray_branch a c = Ok (t, c') →
  length (column_names t) = num_cols t.
Proof.
  unfold ndarray_branch. destruct (negb _); [done|].
  set (cols := match c with Some c0 => c0 | None => _ end).
  destruct (ndim a =? 1).
  - destruct (1 =? length cols) eqn:E; [|done]. cbn [negb].
    destruct (from_arrays _ _) as [t'|] eqn:Hf; [|done].
    apply from_arrays_Ok in Hf as [_ ->]. intros [= <- _].
    apply Nat.eqb_eq in E. unfold num_cols. simpl. lia.
  - destruct (shape1 a =? length cols) eqn:E; [|done]. cbn [negb].
    destruct (from_arrays _ _) as [t'|] eqn:Hf; [|done].
    apply from_arrays_Ok in Hf as [_ ->]. intros [= <- _].
    apply Nat.eqb_eq in E. unfold num_cols. simpl.
    rewrite !length_map, length_seq. lia.
Qed.

(** X14.  The table of every returned plan has as many column names as
    columns, and for an iterable every column has one cell per row. *)
Theorem createDataFrame_table_shape data schema df t :
  createDataFrame data schema = Ok df →
  plan_table df = Some t →
  length (column_names t) = num_cols t ∧
  ∀ sized b, data = Iterable sized b →
    Forall (fun col => length (col_values col) = length (batch_rows b))
      (columns t).
Proof.
  intros Hdf Ht.
  destruct (createDataFrame_Ok_table _ _ _ _ Hdf Ht) as (c & inf & Hb).
  destruct data as [|f|a|sized b]; simpl in Hb; [done|..].
  - destruct (pandas_branch f) as [[r t']|] eqn:Hp; [|done].
    injection Hb as <- _ _. split; [|done].
    by apply pandas_branch_shape in Hp as [? _].
  - split; [|done].
    destruct (ndarray_branch a _) as [[t' c']|] eqn:Hn; [|done].
    injection Hb as <- _ _. by apply ndarray_branch_shape in Hn.
  - unfold iterable_branch in Hb. destruct (batch_is_empty b); [done|].
    destruct (infer_step _ _ _) as [[d i]|] eqn:Hi; [|done].
    simpl in Hb.
    destruct (pylist_table _ _) as [t'|] eqn:Hp; [|done].
    simpl in Hb. injection Hb as <- _ _.
    apply infer_step_rows in Hi.
    apply pylist_table_shape in Hp as [H1 H2].
    split; [done|]. intros sized' b' [= _ <-]. by rewrite <- Hi.
Qed.

(** X15.  For a frame with at least one row: an exception raised while
    pandas and pyarrow build the table is the exception of the call;
    once the table is built, it has one column per column of the frame
    and per index level that Arrow stores, and a structured type or a
    list of names is accepted exactly when it has as many entries as
    the table has columns; otherwise the length-mismatch error names the
    table's column count first. *)
Theorem createDataFrame_pandas_counts (f : PandasFrame value) schema :
  frame_len f ≠ 0 →
  (∀ e, pandas_branch f = Raise e →
     createDataFrame (Pandas f) schema = Raise e)
  ∧ ∀ r t, pandas_branch f = Ok (r, t) →
      num_cols t = length (frame_columns f) + length (frame_index f)
      ∧ (∀ s, schema = SchemaStruct s →
           createDataFrame (Pandas f) schema =
             if length (fields s) =? num_cols t then
               Ok (withPlan
                     (mkLocalRelation (Some t)
                        (Some (schema_json (Struct s)))))
             else Raise (length_mismatch (num_cols t) (length (fields s))))
      ∧ (∀ cols, schema = SchemaCols cols →
           createDataFrame (Pandas f) schema =
             if length cols =? num_cols t then
               Ok (match cols with
                   | [] => withPlan (mkLocalRelation (Some t) None)
                   | _ => toDF (withPlan (mkLocalRelation (Some t) None)) cols
                   end)
             else Raise (length_mismatch (num_cols t) (length cols))).
Proof.
  intros Hn.
  assert (sized_and_empty (Pandas f) = Ok false) as He.
  { unfold sized_and_empty. simpl. by apply Nat.eqb_neq in Hn as ->. }
  rewrite createDataFrame_nonempty by done.
  cbn [build_table]. split.
  - by intros e ->.
  - intros r t Hp. rewrite Hp, !bind_Ok.
    apply pandas_branch_shape in Hp as [_ Hc]. split; [done|].
    unfold validate_and_wrap. split.
    + intros s ->. simpl. by destruct (length (fields s) =? _).
    + intros cols ->. simpl.
      destruct (length cols =? _); simpl; [|done]. by destruct cols.
Qed.

(** X16.  With an explicit atomic or structured type dictionary rows are
    used as they are: the columns of the table are the keys of the first
    row in insertion order. *)
Theorem createDataFrame_dict_explicit_type_order sized (d : dict value) rows
    schema df t :
  is_Some (arg_schema schema) →
  createDataFrame (Iterable sized (DictBatch (d :: rows))) schema = Ok df →
  plan_table df = Some t →
  column_names t = keys d ∧
  columns t =
    map (fun k => mkColumn None (map (fun d' => dict_get d' k) (d :: rows)))
      (keys d).
Proof.
  intros [e He] Hdf Ht.
  destruct (createDataFrame_Ok_table _ _ _ _ Hdf Ht) as (c & inf & Hb).
  simpl in Hb. unfold iterable_branch in Hb. simpl in Hb.
  rewrite He in Hb. simpl in Hb.
  destruct (from_pylist _) as [t'|] eqn:Hp; [|done].
  simpl in Hb. injection Hb as <- _ _.
  apply from_pylist_Ok in Hp as ->. cbn [column_names columns].
  unfold pylist_arrays, pylist_names. split; [done|]. by rewrite map_map.
Qed.
End table_shape.

Section duplicate_names.
Context {V : Type}.
Implicit Types (d : dict V) (l : list (string * V)).

Lemma keys_dict_set d k (v : V) :
  keys (dict_set d k v) = if decide (k ∈ keys d) then keys d else keys d ++ [k].
Proof.
  induction d as [|[k' v'] d IH]; simpl; [done|].
  destruct (String.eqb_spec k k') as [->|Hne]; simpl.
  - rewrite decide_True; [done|by left].
  - rewrite IH. destruct (decide (k ∈ keys d)).
    + rewrite decide_True; [done|by right].
    + rewrite decide_False; [done|]. by intros [?|?]%elem_of_cons.
Qed.

Lemma py_dict_keys_acc l : ∀ acc,
  NoDup (keys acc) →
  NoDup (keys (fold_left (fun d kv => dict_set d kv.1 kv.2) l acc)) ∧
  keys (fold_left (fun d kv => dict_set d kv.1 kv.2) l acc)
    ⊆ keys acc ++ keys l.
Proof.
  induction l as [|[k v] l IH]; intros acc Hnd; simpl.
  - split; [done|]. by rewrite app_nil_r.
  - destruct (IH (dict_set acc k v)) as [H1 H2].
    + rewrite keys_dict_set. case_decide; [done|].
      apply NoDup_app. split; [done|]. split; [|apply NoDup_singleton].
      intros x Hx ->%list_elem_of_singleton. done.
    + split; [done|]. etrans; [exact H2|].
      rewrite keys_dict_set. simpl.
      case_decide; intros x;
        rewrite ?elem_of_app, ?elem_of_cons, ?elem_of_app,
          ?list_elem_of_singleton.
      * tauto.
      * intros [[?|[?|?%elem_of_nil]]|?]; tauto.
Qed.

Lemma length_py_dict_dup l : ¬ NoDup (keys l) → length (py_dict l) < length l.
Proof.
  intros Hdup. destruct (py_dict_keys_acc l [] (NoDup_nil_2)) as [Hnd Hsub].
  fold (py_dict l) in Hnd, Hsub. simpl in Hsub.
  assert (keys (py_dict l) ⊆+ keys l) as Hm by by apply NoDup_submseteq.
  pose proof (submseteq_length _ _ Hm) as Hle.
  unfold keys in Hle. rewrite !length_map in Hle.
  destruct (decide (length (py_dict l) = length l)) as [Heq|]; [|lia].
  destruct Hdup. rewrite <- (submseteq_length_Permutation _ _ Hm); [done|].
  unfold keys. rewrite !length_map. lia.
Qed.
End duplicate_names.

Section duplicate_names_rows.
Context {value : Type} `{!Collaborators value} `{!Arrow value}.

(** X17.  A list of names with a repeated name, no longer than the
    first row, is never accepted: the rows collapse to fewer columns than
    names, and the call raises the length-mismatch error, unless pyarrow
    raises on a column first. *)
Theorem createDataFrame_duplicate_names sized (r : list value) rows cols :
  length cols ≤ length r →
  ¬ NoDup cols →
  is_ok (createDataFrame (Iterable sized (SeqBatch (r :: rows)))
           (SchemaCols cols)) = false
  ∧ ∃ k,
      k < length cols ∧
      (arrow_accepts
         (pylist_arrays (map (fun item => dict_zip cols item) (r :: rows))) →
       createDataFrame (Iterable sized (SeqBatch (r :: rows))) (SchemaCols cols)
       = Raise (length_mismatch k (length cols)))
      ∧ (∀ cls,
           arrow_rejects
             (pylist_arrays (map (fun item => dict_zip cols item) (r :: rows)))
             cls →
           createDataFrame (Iterable sized (SeqBatch (r :: rows)))
             (SchemaCols cols)
           = Raise (LibraryError cls)).
Proof.
  intros Hlen Hdup.
  assert (sized_and_empty (Iterable sized (SeqBatch (r :: rows))) = Ok false)
    as He by (by destruct sized).
  assert (length (dict_zip cols r) < length cols) as Hlt.
  { unfold dict_zip.
    assert (length (zip cols r) = length cols) as <-.
    { rewrite length_zip_with. lia. }
    apply length_py_dict_dup. unfold keys. rewrite map_fmap.
    by rewrite fst_zip. }
  rewrite createDataFrame_nonempty, seq_build_table by done.
  cbn [arg_cols arg_schema arg_schema_str]. cbv zeta.
  match goal with |- is_ok ?e = false ∧ _ => set (res := e) end.
  assert (arrow_accepts
            (pylist_arrays (map (fun item => dict_zip cols item) (r :: rows))) →
          res
          = Raise (length_mismatch (length (dict_zip cols r)) (length cols)))
    as Hacc.
  { intros Hacc. unfold res. rewrite from_pylist_accepts, !bind_Ok by done.
    unfold validate_and_wrap, num_cols, pylist_arrays, pylist_names.
    cbn [map columns]. rewrite !length_map. unfold keys. rewrite length_map.
    assert ((length cols =? length (dict_zip cols r)) = false) as ->; [|done].
    apply Nat.eqb_neq. lia. }
  assert (∀ cls,
            arrow_rejects
              (pylist_arrays (map (fun item => dict_zip cols item) (r :: rows)))
              cls →
            res = Raise (LibraryError cls)) as Hrej.
  { intros cls Hr. unfold res. by rewrite (from_pylist_rejects _ cls). }
  split.
  - destruct (arrow_accepts_or_rejects
                (pylist_arrays
                   (map (fun item => dict_zip cols item) (r :: rows))))
      as [Ha|[cls Hr]].
    + by rewrite Hacc.
    + by rewrite (Hrej cls).
  - exists (length (dict_zip cols r)). split; [done|]. split; done.
Qed.
End duplicate_names_rows.

(** ** Concrete calls for the further properties *)

Lemma config_map_lookup_witness :
  NoDup (keys option_map_example) ∧
  config pyval_to_str (Some "ignored") PNone (Some option_map_example)
    Builder_init !! Some "spark.ui.enabled" = Some (Some "false").
Proof.
  assert (NoDup (keys option_map_example)) as Hnd.
  { apply (bool_decide_unpack _). reflexivity. }
  split; [exact Hnd|].
  apply (proj1 (config_map_lookup pyval_to_str (Some "ignored") PNone
                  option_map_example Builder_init Hnd)
           "spark.ui.enabled" (PBool false)).
  right. left.
Defined.

Lemma createDataFrame_returns_matching_counts_witness :
  createDataFrame (Ndarray array_2x2) (SchemaCols ["p"; "q"])
    = Ok (toDF (withPlan (mkLocalRelation (Some p_q_table) None)) ["p"; "q"])
  ∧ length ["p"; "q"] = num_cols p_q_table.
Proof.
  split; [reflexivity|].
  exact (proj2 (createDataFrame_returns_matching_counts
                  (Ndarray array_2x2) (SchemaCols ["p"; "q"])
                  (toDF (withPlan (mkLocalRelation (Some p_q_table) None))
                     ["p"; "q"])
                  p_q_table eq_refl eq_refl)
           ["p"; "q"] eq_refl).
Defined.

Lemma createDataFrame_keeps_explicit_schema_witness :
  plan_schema_of
    (withPlan
       (mkLocalRelation (value:=pyval) None
          (Some (schema_json (Struct id_name_schema)))))
  = Some (schema_json (Struct id_name_schema)).
Proof.
  exact (proj1 (proj2 (createDataFrame_keeps_explicit_schema no_rows
                         (SchemaStruct id_name_schema) _ eq_refl))
           id_name_schema eq_refl).
Defined.

Lemma createDataFrame_inference_failure_witness :
  createDataFrame (Iterable true null_only_dicts) (SchemaStr "a int")
  = Raise undetermined_types.
Proof.
  apply (createDataFrame_inference_failure true null_only_dicts
           (SchemaStr "a int") undetermined_types);
    [reflexivity|reflexivity|discriminate|reflexivity].
Defined.

Lemma inferSchemaFromList_first_failure_witness :
  _inferSchemaFromList (int_then_string ++ [RDict [("a", PInt 3)]]) None
  = Raise SchemaConflict.
Proof.
  apply (inferSchemaFromList_first_failure (RDict [("a", PInt 1)])
           [RDict [("a", PStr "x")]] [RDict [("a", PInt 3)]] None
           SchemaConflict).
  reflexivity.
Defined.

Lemma createDataFrame_inferred_schema_has_no_null_witness :
  createDataFrame (Iterable true (DictBatch [b_then_a])) SchemaNone
    = Ok (withPlan
            (mkLocalRelation (Some a_b_table)
               (Some (schema_json (Struct a_b_schema)))))
  ∧ ∃ s, Struct a_b_schema = Struct s ∧ _has_nulltype s = false.
Proof.
  split; [reflexivity|].
  exact (createDataFrame_inferred_schema_has_no_null true
           (DictBatch [b_then_a])
           (withPlan
              (mkLocalRelation (Some a_b_table)
                 (Some (schema_json (Struct a_b_schema)))))
           (Struct a_b_schema) eq_refl eq_refl).
Defined.

Lemma createDataFrame_rank1_witness :
  createDataFrame (Ndarray array_3) (SchemaCols ["a"; "b"])
  = Raise (ValueError
      "Length mismatch: Expected axis has 1 element, new values have 2 elements").
Proof.
  assert (3 ≠ 0) as Hne by discriminate.
  apply (proj2 (proj2 (createDataFrame_rank1 array_3
                         (SchemaCols ["a"; "b"]) 3 eq_refl Hne))
           ["a"; "b"] eq_refl).
  discriminate.
Defined.

Lemma createDataFrame_explicit_type_skips_inference_witness :
  @createDataFrame pyval pyval_collaborators _
    (Iterable true (DictBatch [b_then_a])) (SchemaStruct a_b_schema)
  = @createDataFrame pyval failing_inference _
      (Iterable true (DictBatch [b_then_a])) (SchemaStruct a_b_schema).
Proof.
  apply (createDataFrame_explicit_type_skips_inference pyval_collaborators
           failing_inference true (DictBatch [b_then_a])
           (SchemaStruct a_b_schema)).
  - reflexivity.
  - eexists. reflexivity.
Defined.

Lemma createDataFrame_sequence_defaults_witness :
  createDataFrame three_wide SchemaNone
  = Ok (toDF (withPlan (mkLocalRelation (Some positional_table) None))
          ["_1"; "_2"; "_3"]).
Proof.
  apply (proj1 (createDataFrame_sequence_defaults true
                  [PInt 1; PInt 2; PInt 3] [])).
  repeat constructor.
Defined.

Lemma createDataFrame_dict_cells_witness :
  createDataFrame (Iterable true (DictBatch [b_then_a])) SchemaNone
    = Ok (withPlan
            (mkLocalRelation (Some a_b_table)
               (Some (schema_json (Struct a_b_schema)))))
  ∧ column_names a_b_table = keys (sorted_items b_then_a).
Proof.
  split; [reflexivity|].
  assert (Forall (fun d' : dict pyval => NoDup (keys d')) [b_then_a]) as Hnd.
  { constructor; [|constructor]. apply (bool_decide_unpack _). reflexivity. }
  exact (proj1 (createDataFrame_dict_cells true b_then_a [] SchemaNone
                  (withPlan
                     (mkLocalRelation (Some a_b_table)
                        (Some (schema_json (Struct a_b_schema)))))
                  a_b_table eq_refl Hnd eq_refl eq_refl)).
Defined.

Lemma createDataFrame_dict_name_count_witness :
  createDataFrame (Iterable true (DictBatch growing_dicts)) SchemaNone
  = Raise (ValueError
      "Length mismatch: Expected axis has 1 elements, new values have 2 elements").
Proof.
  assert (NoDup (keys [("a", PInt 1)])) as Hnd.
  { apply (bool_decide_unpack _). reflexivity. }
  assert (_inferSchemaFromList (inference_input (DictBatch growing_dicts))
            None = Ok a_b_schema) as Hinf.
  { vm_compute. reflexivity. }
  apply (proj1 (createDataFrame_dict_name_count true [("a", PInt 1)]
                  [[("a", PInt 2); ("b", PInt 3)]] a_b_schema Hnd Hinf)).
  repeat constructor.
Defined.

Lemma createDataFrame_too_many_names_witness :
  createDataFrame (Iterable true (DictBatch [b_then_a]))
    (SchemaCols ["x"; "y"; "z"])
  = Raise (IndexError "list index out of range").
Proof.
  apply (createDataFrame_too_many_names true (DictBatch [b_then_a])
           ["x"; "y"; "z"] a_b_schema);
    [reflexivity|discriminate|reflexivity|exact a_b_schema_lock_step|].
  simpl. lia.
Defined.

Lemma createDataFrame_table_shape_witness :
  createDataFrame three_wide SchemaNone
    = Ok (toDF (withPlan (mkLocalRelation (Some positional_table) None))
            ["_1"; "_2"; "_3"])
  ∧ length (column_names positional_table) = num_cols positional_table.
Proof.
  split; [reflexivity|].
  exact (proj1 (createDataFrame_table_shape three_wide SchemaNone
                  (toDF (withPlan (mkLocalRelation (Some positional_table) None))
                     ["_1"; "_2"; "_3"])
                  positional_table eq_refl eq_refl)).
Defined.

Lemma createDataFrame_pandas_counts_witness :
  createDataFrame (Pandas two_column_frame) (SchemaCols ["a"])
  = Raise (ValueError
      "Length mismatch: Expected axis has 2 elements, new values have 1 elements").
Proof.
  assert (frame_len two_column_frame ≠ 0) as Hne by discriminate.
  exact (proj2 (proj2 (proj2 (createDataFrame_pandas_counts two_column_frame
                                (SchemaCols ["a"]) Hne)
                         TheInput x_y_table eq_refl))
           ["a"] eq_refl).
Defined.

Lemma createDataFrame_dict_explicit_type_order_witness :
  createDataFrame (Iterable true (DictBatch [b_then_a]))
    (SchemaStruct a_b_schema)
    = Ok (withPlan
            (mkLocalRelation (Some b_a_table)
               (Some (schema_json (Struct a_b_schema)))))
  ∧ column_names b_a_table = keys b_then_a.
Proof.
  split; [reflexivity|].
  assert (is_Some (arg_schema (SchemaStruct a_b_schema))) as Hs
    by (eexists; reflexivity).
  exact (proj1 (createDataFrame_dict_explicit_type_order true b_then_a []
                  (SchemaStruct a_b_schema)
                  (withPlan
                     (mkLocalRelation (Some b_a_table)
                        (Some (schema_json (Struct a_b_schema)))))
                  b_a_table Hs eq_refl eq_refl)).
Defined.

Lemma createDataFrame_duplicate_names_witness :
  is_ok (createDataFrame two_wide (SchemaCols ["a"; "a"])) = false.
Proof.
  apply (createDataFrame_duplicate_names true [PInt 1; PInt 2] []
           ["a"; "a"]).
  - simpl. lia.
  - intros [H _]%NoDup_cons. apply H. left.
Defined.
